(** * Car-park admin server: allocation and billing

    A shallow embedding of the Express/better-sqlite3 server of the
    repository (the route handlers /api/whitelist, /api/reserve,
    /api/entry and /api/exit, the schema and the seed), and of the click
    handler of the space grid in App.tsx.

    Conventions of the embedding:
    - a table is the list of its rows in rowid order (the order of a full
      table scan, which is what the LIMIT 1 queries of the server walk);
    - a DATETIME is the number of milliseconds since the epoch (what
      [Date.getTime()] gives for the ISO string that the server stores);
    - [Math.ceil(durationMs / halfDayMs)] is the integer ceiling of the
      quotient (the double division is exact enough for that whenever the
      quotient is below 2^27 half days);
    - a handler is a computation over the database that either returns a
      response or throws; what was written before a throw stays written
      (the server opens no transaction). *)

From Stdlib Require Import ZArith List String Ascii Bool Lia DecimalString.
Import ListNotations.
Local Open Scope Z_scope.
Local Open Scope string_scope.

(** ** Rows and database *)

Record Space := mkSpace {
  space_id : Z;
  space_code : string;
  space_status : string;   (* available, occupied, reserved *)
  space_type : string      (* normal, package *)
}.

Record WhitelistEntry := mkWhitelistEntry {
  wl_id : Z;
  wl_plate_number : string;
  wl_created_at : Z;
  wl_notes : string
}.

Record Vehicle := mkVehicle {
  vehicle_id : Z;
  vehicle_plate_number : string;
  vehicle_has_package : Z;
  vehicle_entry_time : Z;
  vehicle_exit_time : option Z;
  vehicle_space_id : Z
}.

Record LogRow := mkLogRow {
  log_id : Z;
  log_plate_number : string;
  log_action : string;     (* entry, exit *)
  log_timestamp : Z;
  log_amount : Z;
  log_duration_half_days : Z
}.

(** The four tables and, for each AUTOINCREMENT key, the largest rowid
    handed out so far (SQLite's sqlite_sequence). *)
Record Db := mkDb {
  spaces : list Space;
  package_whitelist : list WhitelistEntry;
  vehicles : list Vehicle;
  logs : list LogRow;
  seq_spaces : Z;
  seq_package_whitelist : Z;
  seq_vehicles : Z;
  seq_logs : Z
}.

Definition empty_db : Db := mkDb [] [] [] [] 0 0 0 0.

(** ** Values bound to statement parameters *)

Inductive sqlval :=
| VNull
| VInt (z : Z)
| VText (s : string).

Definition param (i : nat) (args : list sqlval) : sqlval := nth i args VNull.

Definition as_text (v : sqlval) : string :=
  match v with VText s => s | _ => "" end.

Definition as_int (v : sqlval) : Z :=
  match v with VInt z => z | _ => 0 end.

(** [column = ?] : a comparison with NULL is never true. *)
Definition text_eq (column : string) (v : sqlval) : bool :=
  match v with VText s => String.eqb column s | _ => false end.

Definition int_eq (column : Z) (v : sqlval) : bool :=
  match v with VInt z => Z.eqb column z | _ => false end.

(** ** Handlers as computations *)

Inductive js_error :=
| RangeError (message : string)
| SqliteError (message : string).

Inductive outcome (A : Type) :=
| Returned (a : A)
| Threw (e : js_error).
Arguments Returned {A} a.
Arguments Threw {A} e.

Definition M (A : Type) : Type := Db -> outcome A * Db.

Definition ret {A} (a : A) : M A := fun db => (Returned a, db).

Definition bind {A B} (c : M A) (k : A -> M B) : M B :=
  fun db =>
    match c db with
    | (Returned a, db') => k a db'
    | (Threw e, db') => (Threw e, db')
    end.

Definition throw {A} (e : js_error) : M A := fun db => (Threw e, db).

Definition get_db : M Db := fun db => (Returned db, db).

Definition put_db (db' : Db) : M unit := fun _ => (Returned tt, db').

Definition try_catch {A} (c : M A) (handler : js_error -> M A) : M A :=
  fun db =>
    match c db with
    | (Returned a, db') => (Returned a, db')
    | (Threw e, db') => handler e db'
    end.

Notation "x <- c ;; k" := (bind c (fun x => k))
  (at level 61, c at next level, right associativity).
Notation "c ;;; k" := (bind c (fun _ => k))
  (at level 61, right associativity).

Fixpoint forEach {A} (l : list A) (f : A -> M unit) : M unit :=
  match l with
  | [] => ret tt
  | x :: l' => f x ;;; forEach l' f
  end.

(** ** The driver: prepared statements

    better-sqlite3 binds the arguments of [.get(...)] and [.run(...)] to the
    [?] placeholders of the statement and throws a RangeError when their
    numbers differ. *)

Definition too_few : js_error := RangeError "Too few parameter values were provided".
Definition too_many : js_error := RangeError "Too many parameter values were provided".

Definition bind_parameters (count : nat) (args : list sqlval) : M unit :=
  if (List.length args <? count)%nat then throw too_few
  else if (count <? List.length args)%nat then throw too_many
  else ret tt.

(** A SELECT over one table: [.get] gives the first row of the scan that
    passes the WHERE clause, or undefined. *)
Record query (R C : Type) := mkQuery {
  q_params : nat;
  q_from : Db -> list R;
  q_where : list sqlval -> R -> bool;
  q_select : R -> C
}.
Arguments mkQuery {R C}.
Arguments q_params {R C}.
Arguments q_from {R C}.
Arguments q_where {R C}.
Arguments q_select {R C}.

Definition stmt_get {R C} (q : query R C) (args : list sqlval) : M (option C) :=
  bind_parameters (q_params q) args ;;;
  db <- get_db ;;
  ret (option_map (q_select q) (find (q_where q args) (q_from q db))).

(** An INSERT, UPDATE or DELETE: it either rewrites the database or fails
    on a constraint. *)
Record command := mkCommand {
  c_params : nat;
  c_exec : list sqlval -> Db -> js_error + Db
}.

Definition stmt_run (c : command) (args : list sqlval) : M unit :=
  bind_parameters (c_params c) args ;;;
  db <- get_db ;;
  match c_exec c args db with
  | inl e => throw e
  | inr db' => put_db db'
  end.

(** ** Table updates *)

Definition with_spaces (db : Db) (l : list Space) : Db :=
  mkDb l (package_whitelist db) (vehicles db) (logs db)
       (seq_spaces db) (seq_package_whitelist db) (seq_vehicles db) (seq_logs db).

Definition with_vehicles (db : Db) (l : list Vehicle) : Db :=
  mkDb (spaces db) (package_whitelist db) l (logs db)
       (seq_spaces db) (seq_package_whitelist db) (seq_vehicles db) (seq_logs db).

Definition with_whitelist (db : Db) (l : list WhitelistEntry) : Db :=
  mkDb (spaces db) l (vehicles db) (logs db)
       (seq_spaces db) (seq_package_whitelist db) (seq_vehicles db) (seq_logs db).

Definition set_status (status : string) (s : Space) : Space :=
  mkSpace (space_id s) (space_code s) status (space_type s).

Definition set_exit_time (t : Z) (v : Vehicle) : Vehicle :=
  mkVehicle (vehicle_id v) (vehicle_plate_number v) (vehicle_has_package v)
            (vehicle_entry_time v) (Some t) (vehicle_space_id v).

(** UPDATE ... WHERE id = ? : every row passing the test is rewritten. *)
Definition update_where {R} (test : R -> bool) (f : R -> R) (l : list R) : list R :=
  map (fun r => if test r then f r else r) l.

(** ** The statements of the server *)

(** INSERT INTO spaces (code, type) VALUES (?, ?) ; code is UNIQUE. *)
Definition insert_space : command :=
  mkCommand 2 (fun args db =>
    let code := as_text (param 0 args) in
    if existsb (fun s => String.eqb (space_code s) code) (spaces db)
    then inl (SqliteError "UNIQUE constraint failed: spaces.code")
    else
      let id := seq_spaces db + 1 in
      inr (mkDb (spaces db ++ [mkSpace id code "available" (as_text (param 1 args))])
                (package_whitelist db) (vehicles db) (logs db)
                id (seq_package_whitelist db) (seq_vehicles db) (seq_logs db))).

(** INSERT INTO package_whitelist (plate_number, notes) VALUES (?, ?) ;
    plate_number is UNIQUE, created_at is the clock of the insertion. *)
Definition insert_whitelist (now : Z) : command :=
  mkCommand 2 (fun args db =>
    let plate := as_text (param 0 args) in
    if existsb (fun w => String.eqb (wl_plate_number w) plate) (package_whitelist db)
    then inl (SqliteError "UNIQUE constraint failed: package_whitelist.plate_number")
    else
      let id := seq_package_whitelist db + 1 in
      inr (mkDb (spaces db)
                (package_whitelist db ++ [mkWhitelistEntry id plate now (as_text (param 1 args))])
                (vehicles db) (logs db)
                (seq_spaces db) id (seq_vehicles db) (seq_logs db))).

(** DELETE FROM package_whitelist WHERE plate_number = ? *)
Definition delete_whitelist : command :=
  mkCommand 1 (fun args db =>
    inr (with_whitelist db
           (filter (fun w => negb (text_eq (wl_plate_number w) (param 0 args)))
                   (package_whitelist db)))).

(** UPDATE spaces SET status = ? WHERE id = ? *)
Definition update_space_status : command :=
  mkCommand 2 (fun args db =>
    inr (with_spaces db
           (update_where (fun s => int_eq (space_id s) (param 1 args))
                         (set_status (as_text (param 0 args))) (spaces db)))).

(** UPDATE spaces SET status = 'occupied' WHERE id = ? *)
Definition update_space_occupied : command :=
  mkCommand 1 (fun args db =>
    inr (with_spaces db
           (update_where (fun s => int_eq (space_id s) (param 0 args))
                         (set_status "occupied") (spaces db)))).

(** UPDATE spaces SET status = 'available' WHERE id = ? *)
Definition update_space_available : command :=
  mkCommand 1 (fun args db =>
    inr (with_spaces db
           (update_where (fun s => int_eq (space_id s) (param 0 args))
                         (set_status "available") (spaces db)))).

(** INSERT INTO vehicles (plate_number, has_package, entry_time, space_id)
    VALUES (?, ?, ?, ?) ; plate_number is UNIQUE over the whole table and
    space_id references spaces(id) (the driver enforces foreign keys). *)
Definition insert_vehicle : command :=
  mkCommand 4 (fun args db =>
    let plate := as_text (param 0 args) in
    let space := as_int (param 3 args) in
    if existsb (fun v => String.eqb (vehicle_plate_number v) plate) (vehicles db)
    then inl (SqliteError "UNIQUE constraint failed: vehicles.plate_number")
    else if negb (existsb (fun s => Z.eqb (space_id s) space) (spaces db))
    then inl (SqliteError "FOREIGN KEY constraint failed")
    else
      let id := seq_vehicles db + 1 in
      inr (mkDb (spaces db) (package_whitelist db)
                (vehicles db ++ [mkVehicle id plate (as_int (param 1 args))
                                           (as_int (param 2 args)) None space])
                (logs db)
                (seq_spaces db) (seq_package_whitelist db) id (seq_logs db))).

(** UPDATE vehicles SET exit_time = ? WHERE id = ? *)
Definition update_vehicle_exit : command :=
  mkCommand 2 (fun args db =>
    inr (with_vehicles db
           (update_where (fun v => int_eq (vehicle_id v) (param 1 args))
                         (set_exit_time (as_int (param 0 args))) (vehicles db)))).

Definition append_log (db : Db) (plate action : string) (timestamp amount half_days : Z) : Db :=
  let id := seq_logs db + 1 in
  mkDb (spaces db) (package_whitelist db) (vehicles db)
       (logs db ++ [mkLogRow id plate action timestamp amount half_days])
       (seq_spaces db) (seq_package_whitelist db) (seq_vehicles db) id.

(** INSERT INTO logs (plate_number, action, timestamp, amount,
    duration_half_days) VALUES (?, ?, ?, ?, ?) *)
Definition insert_log : command :=
  mkCommand 5 (fun args db =>
    inr (append_log db (as_text (param 0 args)) (as_text (param 1 args))
                    (as_int (param 2 args)) (as_int (param 3 args)) (as_int (param 4 args)))).

(** INSERT INTO logs (plate_number, action, timestamp) VALUES (?, 'entry', ?) ;
    amount and duration_half_days take their default, 0. *)
Definition insert_log_entry : command :=
  mkCommand 2 (fun args db =>
    inr (append_log db (as_text (param 0 args)) "entry" (as_int (param 1 args)) 0 0)).

(** INSERT INTO logs (plate_number, action, timestamp, amount,
    duration_half_days) VALUES (?, 'exit', ?, ?, ?) *)
Definition insert_log_exit : command :=
  mkCommand 4 (fun args db =>
    inr (append_log db (as_text (param 0 args)) "exit" (as_int (param 1 args))
                    (as_int (param 2 args)) (as_int (param 3 args)))).

(** SELECT * FROM package_whitelist WHERE plate_number = ? *)
Definition select_whitelist_by_plate : query WhitelistEntry WhitelistEntry :=
  mkQuery 1 package_whitelist
          (fun args w => text_eq (wl_plate_number w) (param 0 args))
          (fun w => w).

(** SELECT id FROM spaces WHERE status = 'available' AND type = 'package' LIMIT 1 *)
Definition select_available_package : query Space Z :=
  mkQuery 0 spaces
          (fun _ s => String.eqb (space_status s) "available"
                      && String.eqb (space_type s) "package")
          space_id.

(** SELECT id FROM spaces WHERE status = 'available' LIMIT 1 *)
Definition select_available : query Space Z :=
  mkQuery 0 spaces
          (fun _ s => String.eqb (space_status s) "available")
          space_id.

(** SELECT * FROM vehicles WHERE plate_number = ? AND exit_time IS NULL *)
Definition select_active_vehicle : query Vehicle Vehicle :=
  mkQuery 1 vehicles
          (fun args v => text_eq (vehicle_plate_number v) (param 0 args)
                         && match vehicle_exit_time v with None => true | Some _ => false end)
          (fun v => v).

(** ** Seed data (run once, on an empty spaces table) *)

(** [i.toString().padStart(3, '0')] *)
Definition padStart3 (s : string) : string :=
  match String.length s with
  | 0%nat => "000" ++ s
  | 1%nat => "00" ++ s
  | 2%nat => "0" ++ s
  | _ => s
  end.

Definition toString (i : Z) : string := NilZero.string_of_int (Z.to_int i).

Definition space_code_of (i : Z) : string := "A-" ++ padStart3 (toString i).

Definition hour_ms : Z := 60 * 60 * 1000.

(** [new Date('2026-02-27T22:33:18-08:00').getTime()] *)
Definition seed_now : Z := 1772260398000.

Definition whitelistPlates : list (string * string) :=
  [ ("粤B88888", "VIP游客 - 张先生");
    ("京A00001", "长期合作旅行社");
    ("沪C66666", "景区合作伙伴");
    ("浙A12345", "家庭套餐 - 李女士") ].

Record SeedVehicle := mkSeedVehicle {
  sv_plate : string; sv_hasPkg : Z; sv_spaceId : Z; sv_entryOffset : Z
}.

Definition activeVehicles : list SeedVehicle :=
  [ mkSeedVehicle "粤B88888" 1 1 2;
    mkSeedVehicle "京A00001" 1 2 5;
    mkSeedVehicle "苏E99999" 0 16 1;
    mkSeedVehicle "川A77777" 0 17 8 ].

Record SeedLog := mkSeedLog {
  sl_plate : string; sl_action : string; sl_offset : Z; sl_amount : Z; sl_duration : Z
}.

Definition historicalLogs : list SeedLog :=
  [ mkSeedLog "粤B12345" "entry" 24 0 0;
    mkSeedLog "粤B12345" "exit" 12 20 1;
    mkSeedLog "京A88888" "entry" 48 0 0;
    mkSeedLog "京A88888" "exit" 36 40 2;
    mkSeedLog "沪A66666" "entry" 10 0 0;
    mkSeedLog "沪A66666" "exit" 2 20 1 ].

Definition seed (boot : Z) : M unit :=
  db <- get_db ;;
  if (Z.of_nat (List.length (spaces db)) =? 0)%Z then
    forEach (map Z.of_nat (seq 1 50)) (fun i =>
      let type := if (i <=? 15)%Z then "package" else "normal" in
      stmt_run insert_space [VText (space_code_of i); VText type]) ;;;
    forEach whitelistPlates (fun '(plate, notes) =>
      stmt_run (insert_whitelist boot) [VText plate; VText notes]) ;;;
    forEach activeVehicles (fun v =>
      let entryTime := seed_now - sv_entryOffset v * hour_ms in
      stmt_run insert_vehicle
               [VText (sv_plate v); VInt (sv_hasPkg v); VInt entryTime; VInt (sv_spaceId v)] ;;;
      stmt_run update_space_occupied [VInt (sv_spaceId v)] ;;;
      stmt_run insert_log [VText (sv_plate v); VText "entry"; VInt entryTime; VInt 0; VInt 0]) ;;;
    forEach historicalLogs (fun l =>
      let timestamp := seed_now - sl_offset l * hour_ms in
      stmt_run insert_log
               [VText (sl_plate l); VText (sl_action l); VInt timestamp;
                VInt (sl_amount l); VInt (sl_duration l)])
  else ret tt.

(** The database the server starts from on a fresh file. *)
Definition seeded (boot : Z) : Db := snd (seed boot empty_db).

(** ** Responses *)

Inductive response :=
| JsonSuccess
| JsonEntry (spaceId : Z) (hasPackage : bool)
| JsonExit (amount durationHalfDays : Z) (hasPackage : bool) (entryTime exitTime : Z)
| JsonError (status : Z) (error : string)
| InternalServerError (e : js_error)
| NotFound.

(** The failure signals of the interface, as the server words them. *)
Definition LotFullError : response := JsonError 400 "停车场已满，无可用车位".
Definition NotParkedError : response := JsonError 404 "未找到该车辆在场记录".
Definition DuplicateError : response := JsonError 400 "该车牌已在套餐白名单中".

(** Express runs the handler; an exception thrown by it is answered by the
    default error handler with status 500. A request that matches no route
    is answered [NotFound] (status 404) by the final handler. *)
Definition express (handler : M response) (db : Db) : response * Db :=
  match handler db with
  | (Returned r, db') => (r, db')
  | (Threw e, db') => (InternalServerError e, db')
  end.

(** ** Route handlers *)

(** app.post("/api/whitelist") *)
Definition api_whitelist_post (plateNumber notes : string) (now : Z) : M response :=
  try_catch
    (stmt_run (insert_whitelist now) [VText plateNumber; VText notes] ;;;
     ret JsonSuccess)
    (fun _ => ret DuplicateError).

(** app.delete("/api/whitelist/:plate") ; [plate] is the path segment
    after /api/whitelist/, decoded. The parameter of the route matches a
    non-empty segment only: with an empty one no route matches and the
    handler is not run. *)
Definition api_whitelist_delete (plate : string) : M response :=
  if String.eqb plate "" then ret NotFound
  else
    stmt_run delete_whitelist [VText plate] ;;;
    ret JsonSuccess.

(** app.post("/api/reserve") *)
Definition api_reserve (spaceId : Z) (status : string) : M response :=
  stmt_run update_space_status [VText status; VInt spaceId] ;;;
  ret JsonSuccess.

(** [!!x] on the result of [.get] *)
Definition truthy {A} (x : option A) : bool :=
  match x with Some _ => true | None => false end.

(** The space selection of /api/entry: a package space first for a package
    user, then any available space. *)
Definition findAvailable (hasPackage : bool) : M (option Z) :=
  space <- (if hasPackage then stmt_get select_available_package [] else ret None) ;;
  if negb (truthy space) then stmt_get select_available [] else ret space.

(** /api/entry from the space selection on, for the flag computed before. *)
Definition entry_allocate (plateNumber : string) (hasPackage : bool) (now : Z) : M response :=
  space <- findAvailable hasPackage ;;
  match space with
  | None => ret LotFullError
  | Some id =>
      let entryTime := now in
      stmt_run insert_vehicle
               [VText plateNumber; VInt (if hasPackage then 1 else 0); VInt entryTime; VInt id] ;;;
      stmt_run update_space_occupied [VInt id] ;;;
      stmt_run insert_log_entry [VText plateNumber; VInt entryTime] ;;;
      ret (JsonEntry id hasPackage)
  end.

(** app.post("/api/entry") ; [now] is the clock read by [new Date()]. The
    whitelist query is run with no argument for its placeholder. *)
Definition api_entry (plateNumber : string) (now : Z) : M response :=
  whitelistEntry <- stmt_get select_whitelist_by_plate [] ;;
  let hasPackage := truthy whitelistEntry in
  entry_allocate plateNumber hasPackage now.

(** [Math.ceil(a / b)] for [b > 0] *)
Definition Math_ceil_div (a b : Z) : Z := - ((- a) / b).

Definition halfDayMs : Z := 1000 * 60 * 60 * 12.

Definition halfDays_of (durationMs : Z) : Z := Math_ceil_div durationMs halfDayMs.

(** [!vehicle.has_package] picks the charged branch. *)
Definition amount_of (has_package halfDays : Z) : Z :=
  if (has_package =? 0)%Z then halfDays * 20 else 0.

(** /api/exit once the vehicle row is found: fee, updates, log, response. *)
Definition exit_settle (plateNumber : string) (vehicle : Vehicle) (now : Z) : M response :=
  let exitTime := now in
  let durationMs := exitTime - vehicle_entry_time vehicle in
  let halfDays := halfDays_of durationMs in
  let amount := amount_of (vehicle_has_package vehicle) halfDays in
  stmt_run update_vehicle_exit [VInt exitTime; VInt (vehicle_id vehicle)] ;;;
  stmt_run update_space_available [VInt (vehicle_space_id vehicle)] ;;;
  stmt_run insert_log_exit [VText plateNumber; VInt exitTime; VInt amount; VInt halfDays] ;;;
  ret (JsonExit amount halfDays (negb (vehicle_has_package vehicle =? 0)%Z)
                (vehicle_entry_time vehicle) exitTime).

(** app.post("/api/exit") ; the vehicle query is run with no argument for
    its placeholder. *)
Definition api_exit (plateNumber : string) (now : Z) : M response :=
  vehicle <- stmt_get select_active_vehicle [] ;;
  match vehicle with
  | None => ret NotParkedError
  | Some v => exit_settle plateNumber v now
  end.

(** ** The space grid of the admin page (App.tsx) *)

(** toggleSpaceReservation: the request it sends to /api/reserve. *)
Definition toggleSpaceReservation (spaceId : Z) (currentStatus : string) : M response :=
  let newStatus := if String.eqb currentStatus "reserved" then "available" else "reserved" in
  api_reserve spaceId newStatus.

(** onClick of a cell; [space] is the row as the page last fetched it. A
    cell shown as occupied sends nothing. *)
Definition space_onClick (space : Space) : option (M response) :=
  if negb (String.eqb (space_status space) "occupied")
  then Some (toggleSpaceReservation (space_id space) (space_status space))
  else None.

(** ** The public operations and the states they reach *)

Inductive operation :=
| Entry (plateNumber : string) (now : Z)
| Exit (plateNumber : string) (now : Z)
| WhitelistAdd (plateNumber notes : string) (now : Z)
| WhitelistRemove (plate : string)
| Reserve (spaceId : Z) (status : string).

Definition handler (op : operation) : M response :=
  match op with
  | Entry plateNumber now => api_entry plateNumber now
  | Exit plateNumber now => api_exit plateNumber now
  | WhitelistAdd plateNumber notes now => api_whitelist_post plateNumber notes now
  | WhitelistRemove plate => api_whitelist_delete plate
  | Reserve spaceId status => api_reserve spaceId status
  end.

Definition step (op : operation) (db : Db) : Db := snd (express (handler op) db).

Definition run (ops : list operation) (db : Db) : Db :=
  fold_left (fun db op => step op db) ops db.

(** ** Notions the specification speaks of *)

Definition is_available (s : Space) : bool := String.eqb (space_status s) "available".
Definition is_occupied (s : Space) : bool := String.eqb (space_status s) "occupied".
Definition is_package (s : Space) : bool := String.eqb (space_type s) "package".

Definition is_active (v : Vehicle) : bool :=
  match vehicle_exit_time v with None => true | Some _ => false end.

(** SELECT COUNT( * ) FROM spaces WHERE status = 'occupied' (/api/stats) *)
Definition occupied_count (db : Db) : nat := List.length (filter is_occupied (spaces db)).

(** The rows of /api/vehicles: WHERE exit_time IS NULL *)
Definition active_count (db : Db) : nat := List.length (filter is_active (vehicles db)).

(** A whitelist entry for exactly this plate exists: the whitelist query
    with the plate bound to its placeholder. *)
Definition isWhitelisted (plate : string) (db : Db) : bool :=
  truthy (find (q_where select_whitelist_by_plate [VText plate]) (package_whitelist db)).

(** The active record of a plate: the vehicle query with the plate bound
    to its placeholder. *)
Definition active_record (plate : string) (db : Db) : option Vehicle :=
  find (q_where select_active_vehicle [VText plate]) (vehicles db).

Definition status_of (spaceId : Z) (db : Db) : option string :=
  option_map space_status (find (fun s => Z.eqb (space_id s) spaceId) (spaces db)).

(** Rowids in scan order. *)
Fixpoint ascending (l : list Z) : bool :=
  match l with
  | x :: ((y :: _) as t) => (x <? y)%Z && ascending t
  | _ => true
  end.

(** [r] is the identifier of the first space of the scan that passes [p],
    and no space passing [p] has a lower identifier. *)
Definition lowest_of (p : Space -> bool) (l : list Space) (r : option Z) : Prop :=
  match r with
  | Some i =>
      exists s, In s l /\ space_id s = i /\ p s = true /\
                forall s', In s' l -> p s' = true -> i <= space_id s'
  | None => forall s, In s l -> p s = false
  end.

(** A reservation toggle that stays off occupied spaces: it neither targets
    a space that is occupied nor sets the status occupied. *)
Definition off_occupied (op : operation) (db : Db) : bool :=
  match op with
  | Reserve spaceId status =>
      negb (String.eqb status "occupied")
      && forallb (fun s => negb (Z.eqb (space_id s) spaceId && is_occupied s)) (spaces db)
  | _ => true
  end.

Fixpoint all_off_occupied (ops : list operation) (db : Db) : bool :=
  match ops with
  | [] => true
  | op :: ops' => off_occupied op db && all_off_occupied ops' (step op db)
  end.

(** The seeded lot after every space was set to occupied. *)
Definition full_lot : Db :=
  run (map (fun i => Reserve i "occupied") (map Z.of_nat (seq 1 50))) (seeded 0).

(** The database once the active record of [plate], if any, is settled by
    the exit stage at [now]. *)
Definition close_visit (plate : string) (now : Z) (db : Db) : Db :=
  match active_record plate db with
  | Some v => snd (exit_settle plate v now db)
  | None => db
  end.

(** Identifiers of the occupied spaces, and the spaces the active records
    point to, in scan order. *)
Definition occupied_spaces (db : Db) : list Z :=
  map space_id (filter is_occupied (spaces db)).

Definition active_spaces (db : Db) : list Z :=
  map vehicle_space_id (filter is_active (vehicles db)).

(** What the key constraints and the entry/exit flow maintain: primary
    keys are unique and were issued by the sequence, no two active records
    share a space, and a space is occupied exactly when an active record
    points to it. *)
Record consistent (db : Db) : Prop := mkConsistent {
  space_ids_unique : NoDup (map space_id (spaces db));
  vehicle_ids_unique : NoDup (map vehicle_id (vehicles db));
  vehicle_ids_issued : forall v, In v (vehicles db) -> vehicle_id v <= seq_vehicles db;
  active_spaces_unique : NoDup (active_spaces db);
  occupied_iff_active : forall i, In i (occupied_spaces db) <-> In i (active_spaces db)
}.

(** Steps of the server with the stages behind the two lookups run
    directly: the entry stage with either flag, the exit stage on the
    active record of the plate, and the public operations (toggles off
    occupied spaces). *)
Inductive stage_step : Db -> Db -> Prop :=
| stage_entry plateNumber hasPackage now db :
    stage_step db (snd (entry_allocate plateNumber hasPackage now db))
| stage_exit plateNumber v now db :
    active_record plateNumber db = Some v ->
    stage_step db (snd (exit_settle plateNumber v now db))
| stage_public op db :
    off_occupied op db = true ->
    stage_step db (step op db).

Inductive stage_reachable (boot : Z) : Db -> Prop :=
| stage_seeded : stage_reachable boot (seeded boot)
| stage_next db db' :
    stage_reachable boot db -> stage_step db db' -> stage_reachable boot db'.

(** The two whitelist operations, as a trace of their own. *)
Inductive whitelist_operation :=
| Add (plateNumber notes : string) (now : Z)
| Remove (plate : string).

Definition of_whitelist (w : whitelist_operation) : operation :=
  match w with
  | Add plateNumber notes now => WhitelistAdd plateNumber notes now
  | Remove plate => WhitelistRemove plate
  end.

(** ** Read handlers *)

(** SELECT COUNT( * ) as count FROM ... [WHERE ...], run with [.get()] *)
Definition stmt_count {R} (from : Db -> list R) (where_ : R -> bool) : M Z :=
  bind_parameters 0 [] ;;;
  db <- get_db ;;
  ret (Z.of_nat (List.length (filter where_ (from db)))).

(** SELECT SUM(amount) as total FROM logs : NULL on an empty table. *)
Definition stmt_sum_amount : M (option Z) :=
  bind_parameters 0 [] ;;;
  db <- get_db ;;
  ret (match logs db with
       | [] => None
       | rows => Some (fold_right Z.add 0 (map log_amount rows))
       end).

(** [x || 0] on a number or null *)
Definition or_zero (x : option Z) : Z :=
  match x with
  | Some t => if (t =? 0)%Z then 0 else t
  | None => 0
  end.

Record Stats := mkStats {
  totalSpaces : Z;
  occupiedSpaces : Z;
  reservedSpaces : Z;
  availableSpaces : Z;
  totalRevenue : Z;
  whitelistCount : Z
}.

(** app.get("/api/stats") *)
Definition api_stats : M Stats :=
  total <- stmt_count spaces (fun _ => true) ;;
  occupied <- stmt_count spaces (fun s => String.eqb (space_status s) "occupied") ;;
  reserved <- stmt_count spaces (fun s => String.eqb (space_status s) "reserved") ;;
  revenue <- stmt_sum_amount ;;
  whitelist <- stmt_count package_whitelist (fun _ => true) ;;
  ret (mkStats total occupied reserved (total - occupied - reserved)
               (or_zero revenue) whitelist).

(** app.get("/api/spaces") : SELECT * FROM spaces, run with [.all()] *)
Definition api_spaces : M (list Space) :=
  bind_parameters 0 [] ;;;
  db <- get_db ;;
  ret (spaces db).

(** A row of /api/vehicles: the vehicle and the code of its space, NULL
    when the LEFT JOIN finds no space. *)
Definition VehicleRow : Type := (Vehicle * option string)%type.

(** SELECT v.*, s.code as space_code FROM vehicles v
    LEFT JOIN spaces s ON v.space_id = s.id WHERE v.exit_time IS NULL *)
Definition join_spaces (db : Db) (v : Vehicle) : list VehicleRow :=
  match filter (fun s => Z.eqb (vehicle_space_id v) (space_id s)) (spaces db) with
  | [] => [(v, None)]
  | matches => map (fun s => (v, Some (space_code s))) matches
  end.

(** app.get("/api/vehicles") *)
Definition api_vehicles : M (list VehicleRow) :=
  bind_parameters 0 [] ;;;
  db <- get_db ;;
  ret (filter (fun row => is_active (fst row)) (flat_map (join_spaces db) (vehicles db))).

(** ** Derived notions for the read side and the page *)

Definition is_reserved (s : Space) : bool := String.eqb (space_status s) "reserved".

(** The answer of /api/stats on a database. *)
Definition stats_of (db : Db) : outcome Stats := fst (api_stats db).

Definition sum_amounts (db : Db) : Z := fold_right Z.add 0 (map log_amount (logs db)).

(** A click on a cell of the grid, with the request it sends (if any)
    served at once. *)
Definition click (cell : Space) (db : Db) : Db :=
  match space_onClick cell with
  | Some request => snd (express request db)
  | None => db
  end.

(** * Properties *)

(** ** The driver *)

Lemma stmt_get_too_few {R C} (q : query R C) (args : list sqlval) (db : Db) :
  (List.length args <? q_params q)%nat = true ->
  stmt_get q args db = (Threw too_few, db).
Proof.
  intros H. unfold stmt_get, bind, bind_parameters. rewrite H. reflexivity.
Qed.

(** Both lookups of the server are run without the plate: the handlers
    throw before they read or write anything. *)
Lemma api_entry_throws (plateNumber : string) (now : Z) (db : Db) :
  api_entry plateNumber now db = (Threw too_few, db).
Proof.
  unfold api_entry, bind. rewrite stmt_get_too_few; reflexivity.
Qed.

Lemma api_exit_throws (plateNumber : string) (now : Z) (db : Db) :
  api_exit plateNumber now db = (Threw too_few, db).
Proof.
  unfold api_exit, bind. rewrite stmt_get_too_few; reflexivity.
Qed.

Lemma step_entry (plateNumber : string) (now : Z) (db : Db) :
  step (Entry plateNumber now) db = db.
Proof. unfold step, express, handler. now rewrite api_entry_throws. Qed.

Lemma step_exit (plateNumber : string) (now : Z) (db : Db) :
  step (Exit plateNumber now) db = db.
Proof. unfold step, express, handler. now rewrite api_exit_throws. Qed.

(** ** The stages behind the lookups *)

Lemma Math_ceil_div_spec (a b : Z) :
  0 < b -> b * (Math_ceil_div a b - 1) < a <= b * Math_ceil_div a b.
Proof.
  intros Hb. unfold Math_ceil_div.
  pose proof (Z.div_mod (- a) b ltac:(lia)) as E.
  pose proof (Z.mod_pos_bound (- a) b Hb) as B.
  nia.
Qed.

Lemma exit_settle_run (plateNumber : string) (v : Vehicle) (now : Z) (db : Db) :
  let halfDays := halfDays_of (now - vehicle_entry_time v) in
  let amount := amount_of (vehicle_has_package v) halfDays in
  exit_settle plateNumber v now db =
  (Returned (JsonExit amount halfDays (negb (vehicle_has_package v =? 0)%Z)
                      (vehicle_entry_time v) now),
   append_log
     (with_spaces
        (with_vehicles db
           (update_where (fun x => Z.eqb (vehicle_id x) (vehicle_id v))
                         (set_exit_time now) (vehicles db)))
        (update_where (fun s => Z.eqb (space_id s) (vehicle_space_id v))
                      (set_status "available") (spaces db)))
     plateNumber "exit" now amount halfDays).
Proof. reflexivity. Qed.

Lemma find_none_existsb {A} (p : A -> bool) (l : list A) :
  existsb p l = false -> find p l = None.
Proof.
  induction l as [|x l IH]; simpl; [reflexivity|].
  destruct (p x); simpl; [discriminate | exact IH].
Qed.

Lemma findAvailable_run (hasPackage : bool) (db : Db) :
  findAvailable hasPackage db =
  (Returned
     (match (if hasPackage
             then find (fun s => is_available s && is_package s) (spaces db)
             else None) with
      | Some s => Some (space_id s)
      | None => option_map space_id (find is_available (spaces db))
      end), db).
Proof.
  unfold findAvailable, bind. destruct hasPackage; simpl.
  - unfold stmt_get, bind; simpl.
    change (fun s => String.eqb (space_status s) "available"
                     && String.eqb (space_type s) "package")
      with (fun s => is_available s && is_package s).
    destruct (find (fun s => is_available s && is_package s) (spaces db)); reflexivity.
  - reflexivity.
Qed.

Lemma entry_allocate_lot_full (plateNumber : string) (hasPackage : bool) (now : Z) (db : Db) :
  existsb is_available (spaces db) = false ->
  entry_allocate plateNumber hasPackage now db = (Returned LotFullError, db).
Proof.
  intros H. unfold entry_allocate, bind. rewrite findAvailable_run.
  assert (Hp : find (fun s => is_available s && is_package s) (spaces db) = None).
  { apply find_none_existsb. clear -H. induction (spaces db) as [|x l IH]; simpl in *.
    - reflexivity.
    - apply orb_false_iff in H as [H1 H2]. rewrite H1. simpl. auto. }
  rewrite Hp, (find_none_existsb _ _ H). destruct hasPackage; reflexivity.
Qed.

(** ** Scans in rowid order *)

Lemma ascending_tail (x : Z) (l : list Z) :
  ascending (x :: l) = true -> ascending l = true.
Proof.
  destruct l as [|y l]; simpl; [reflexivity|].
  intros H. apply andb_true_iff in H. tauto.
Qed.

Lemma ascending_head (l : list Z) :
  forall x y, ascending (x :: l) = true -> In y l -> x < y.
Proof.
  induction l as [|z l IH]; intros x y H Hy; [contradiction|].
  simpl in H. apply andb_true_iff in H as [Hxz Hz]. apply Z.ltb_lt in Hxz.
  destruct Hy as [<-|Hy]; [exact Hxz|].
  specialize (IH z y Hz Hy). lia.
Qed.

Lemma find_lowest (p : Space -> bool) (l : list Space) :
  ascending (map space_id l) = true ->
  lowest_of p l (option_map space_id (find p l)).
Proof.
  induction l as [|x l IH]; intros Hasc; simpl.
  - intros s [].
  - destruct (p x) eqn:Hx; simpl.
    + exists x. repeat split; auto.
      intros s' [<-|Hs'] _; [lia|].
      pose proof (ascending_head _ _ (space_id s') Hasc (in_map space_id _ _ Hs')). lia.
    + specialize (IH (ascending_tail _ _ Hasc)).
      destruct (find p l) as [s|]; simpl in *.
      * destruct IH as (s0 & Hin & Hid & Hp & Hmin).
        exists s0. repeat split; auto.
        intros s' [<-|Hs'] Hps'; [congruence | auto].
      * intros s [<-|Hs]; auto.
Qed.

Lemma find_some_existsb {A} (p : A -> bool) (l : list A) :
  existsb p l = true -> find p l <> None.
Proof.
  induction l as [|x l IH]; simpl; [discriminate|].
  destruct (p x); simpl; [discriminate | exact IH].
Qed.

(** C8: the space selection of Entry takes, for a package user, the
    available package space first (the first of the scan, which has the
    lowest identifier among them); when there is none, or for a normal
    user, it takes the available space with the lowest identifier, and
    nothing when no space is available. It writes nothing, and its result
    is a function of the flag and of the spaces table alone. *)
Theorem C8_findAvailable_policy (hasPackage : bool) (db : Db) :
  ascending (map space_id (spaces db)) = true ->
  exists r : option Z,
    findAvailable hasPackage db = (Returned r, db)
    /\ (if hasPackage && existsb (fun s => is_available s && is_package s) (spaces db)
        then r <> None
             /\ lowest_of (fun s => is_available s && is_package s) (spaces db) r
        else lowest_of is_available (spaces db) r)
    /\ (forall db', spaces db' = spaces db ->
                    fst (findAvailable hasPackage db') = Returned r).
Proof.
  intros Hasc. eexists. split; [apply findAvailable_run|]. split.
  - destruct hasPackage; simpl.
    + destruct (existsb _ (spaces db)) eqn:Hex.
      * pose proof (find_some_existsb _ _ Hex) as Hne.
        pose proof (find_lowest (fun s => is_available s && is_package s) _ Hasc) as Hlow.
        destruct (find (fun s => is_available s && is_package s) (spaces db)); [|congruence].
        split; [discriminate | exact Hlow].
      * rewrite (find_none_existsb _ _ Hex). apply find_lowest, Hasc.
    + apply find_lowest, Hasc.
  - intros db' E. rewrite findAvailable_run, E. reflexivity.
Qed.

Lemma C8_findAvailable_policy_witness :
  ascending (map space_id (spaces (seeded 0))) = true
  /\ exists r : option Z,
       findAvailable true (seeded 0) = (Returned r, seeded 0)
       /\ (if true && existsb (fun s => is_available s && is_package s) (spaces (seeded 0))
           then r <> None
                /\ lowest_of (fun s => is_available s && is_package s) (spaces (seeded 0)) r
           else lowest_of is_available (spaces (seeded 0)) r)
       /\ (forall db', spaces db' = spaces (seeded 0) ->
                       fst (findAvailable true db') = Returned r).
Proof.
  split; [reflexivity | apply (C8_findAvailable_policy true (seeded 0)); reflexivity].
Defined.

(** ** The reservation toggle *)

Lemma api_reserve_run (spaceId : Z) (status : string) (db : Db) :
  api_reserve spaceId status db =
  (Returned JsonSuccess,
   with_spaces db (update_where (fun s => Z.eqb (space_id s) spaceId)
                                (set_status status) (spaces db))).
Proof. reflexivity. Qed.

Lemma find_update_where_id (spaceId : Z) (status : string) (l : list Space) :
  find (fun s => Z.eqb (space_id s) spaceId)
       (update_where (fun s => Z.eqb (space_id s) spaceId) (set_status status) l)
  = option_map (set_status status) (find (fun s => Z.eqb (space_id s) spaceId) l).
Proof.
  induction l as [|x l IH]; simpl; [reflexivity|].
  destruct (Z.eqb (space_id x) spaceId) eqn:E; simpl; rewrite E; [reflexivity | exact IH].
Qed.

(** C3, as the server has it: the reservation toggle checks nothing. It
    answers success and sets the status of the target space to the
    requested one whatever the current status, occupied included; the other
    tables are untouched. The only guard is in the admin page, whose grid
    sends a request exactly for the cells it does not show as occupied. *)
Theorem C3_reserve_unconditional (spaceId : Z) (status : string) (db : Db) :
  express (api_reserve spaceId status) db =
    (JsonSuccess,
     with_spaces db (update_where (fun s => Z.eqb (space_id s) spaceId)
                                  (set_status status) (spaces db)))
  /\ status_of spaceId (step (Reserve spaceId status) db)
     = option_map (fun _ => status) (status_of spaceId db)
  /\ (forall cell : Space, truthy (space_onClick cell) = negb (is_occupied cell)).
Proof.
  split; [reflexivity|]. split.
  - unfold step, express, handler. rewrite api_reserve_run. unfold status_of; simpl.
    rewrite find_update_where_id.
    destruct (find (fun s => Z.eqb (space_id s) spaceId) (spaces db)); reflexivity.
  - intros cell. unfold space_onClick, is_occupied.
    destruct (String.eqb (space_status cell) "occupied"); reflexivity.
Qed.

(** C3 fails as stated: space 1 of the seeded lot is occupied, the toggle
    on it answers success and leaves it reserved. *)
Lemma C3_reserve_occupied_counterexample :
  status_of 1 (seeded 0) = Some "occupied"
  /\ fst (express (api_reserve 1 "reserved") (seeded 0)) = JsonSuccess
  /\ status_of 1 (snd (express (api_reserve 1 "reserved") (seeded 0))) = Some "reserved".
Proof. repeat split; vm_compute; reflexivity. Qed.

(** ** Occupied spaces and active records *)

Lemma occupied_update_off (spaceId : Z) (status : string) (l : list Space) :
  String.eqb status "occupied" = false ->
  forallb (fun s => negb (Z.eqb (space_id s) spaceId && is_occupied s)) l = true ->
  filter is_occupied (update_where (fun s => Z.eqb (space_id s) spaceId) (set_status status) l)
  = filter is_occupied l.
Proof.
  intros Hst. induction l as [|x l IH]; simpl; [reflexivity|].
  intros H. apply andb_true_iff in H as [Hx Hl]. rewrite (IH Hl).
  destruct (Z.eqb (space_id x) spaceId); simpl in *; [|reflexivity].
  apply negb_true_iff in Hx. rewrite Hx. unfold is_occupied; simpl. now rewrite Hst.
Qed.

Lemma api_whitelist_post_tables (plateNumber notes : string) (now : Z) (db : Db) :
  let db' := step (WhitelistAdd plateNumber notes now) db in
  spaces db' = spaces db /\ vehicles db' = vehicles db /\ logs db' = logs db.
Proof.
  unfold step, express, handler, api_whitelist_post, try_catch, bind, stmt_run, bind; simpl.
  destruct (existsb _ (package_whitelist db)); simpl; auto.
Qed.

Lemma step_whitelist_remove (plate : string) (db : Db) :
  step (WhitelistRemove plate) db
  = if String.eqb plate "" then db
    else with_whitelist db
           (filter (fun w => negb (String.eqb (wl_plate_number w) plate))
                   (package_whitelist db)).
Proof.
  unfold step, express, handler, api_whitelist_delete.
  destruct (String.eqb plate ""); reflexivity.
Qed.

Lemma api_whitelist_delete_tables (plate : string) (db : Db) :
  let db' := step (WhitelistRemove plate) db in
  spaces db' = spaces db /\ vehicles db' = vehicles db /\ logs db' = logs db.
Proof.
  simpl. rewrite step_whitelist_remove. destruct (String.eqb plate ""); simpl; auto.
Qed.

Lemma step_off_occupied (op : operation) (db : Db) :
  off_occupied op db = true ->
  occupied_count (step op db) = occupied_count db
  /\ active_count (step op db) = active_count db.
Proof.
  unfold occupied_count, active_count. destruct op as [p n|p n|p nt n|p|i st]; intros H.
  - now rewrite step_entry.
  - now rewrite step_exit.
  - destruct (api_whitelist_post_tables p nt n db) as (-> & -> & _). auto.
  - destruct (api_whitelist_delete_tables p db) as (-> & -> & _). auto.
  - simpl in H. apply andb_true_iff in H as [Hst Hl]. apply negb_true_iff in Hst.
    unfold step, express, handler. rewrite api_reserve_run. simpl.
    now rewrite (occupied_update_off _ _ _ Hst Hl).
Qed.

Lemma run_off_occupied (ops : list operation) :
  forall db, all_off_occupied ops db = true ->
             occupied_count (run ops db) = occupied_count db
             /\ active_count (run ops db) = active_count db.
Proof.
  induction ops as [|op ops IH]; intros db H; simpl in *; [auto|].
  apply andb_true_iff in H as [Hop Hops].
  destruct (step_off_occupied _ _ Hop) as [<- <-]. apply (IH _ Hops).
Qed.

Lemma seeded_counts (boot : Z) :
  occupied_count (seeded boot) = 4%nat /\ active_count (seeded boot) = 4%nat.
Proof. split; vm_compute; reflexivity. Qed.

(** C4, as the server has it: in every state reached from the seeded one by
    Entry, Exit, whitelist add, whitelist remove and reservation toggles
    that stay off occupied spaces (no toggle targets a space that is
    occupied, none sets the status occupied), as many spaces are occupied
    as there are records with no exit time. *)
Theorem C4_occupied_equals_active (boot : Z) (ops : list operation) :
  all_off_occupied ops (seeded boot) = true ->
  occupied_count (run ops (seeded boot)) = active_count (run ops (seeded boot)).
Proof.
  intros H. destruct (run_off_occupied _ _ H) as [-> ->].
  destruct (seeded_counts boot) as [-> ->]. reflexivity.
Qed.

Lemma C4_occupied_equals_active_witness :
  all_off_occupied [Reserve 3 "reserved"; WhitelistAdd "A1" "" 5; Reserve 3 "available";
                    WhitelistRemove "A1"] (seeded 0) = true
  /\ occupied_count (run [Reserve 3 "reserved"; WhitelistAdd "A1" "" 5; Reserve 3 "available";
                          WhitelistRemove "A1"] (seeded 0))
     = active_count (run [Reserve 3 "reserved"; WhitelistAdd "A1" "" 5; Reserve 3 "available";
                          WhitelistRemove "A1"] (seeded 0)).
Proof.
  split; [vm_compute; reflexivity | apply (C4_occupied_equals_active 0); vm_compute; reflexivity].
Defined.

(** C4 fails as stated: one reservation toggle that frees the occupied
    space 1 of the seeded lot leaves 3 occupied spaces for 4 active records. *)
Lemma C4_toggle_breaks_count_counterexample :
  occupied_count (run [Reserve 1 "available"] (seeded 0)) = 3%nat
  /\ active_count (run [Reserve 1 "available"] (seeded 0)) = 4%nat
  /\ occupied_count (run [Reserve 1 "available"] (seeded 0))
     <> active_count (run [Reserve 1 "available"] (seeded 0)).
Proof.
  split; [vm_compute; reflexivity|]. split; [vm_compute; reflexivity|].
  vm_compute. discriminate.
Qed.

(** ** Whitelist changes during a stay *)

Lemma run_whitelist_tables (ws : list whitelist_operation) :
  forall db, let db' := run (map of_whitelist ws) db in
             spaces db' = spaces db /\ vehicles db' = vehicles db /\ logs db' = logs db.
Proof.
  induction ws as [|w ws IH]; intros db; simpl; [auto|].
  destruct (IH (step (of_whitelist w) db)) as (-> & -> & ->).
  destruct w as [p nt n|p]; simpl of_whitelist.
  - apply api_whitelist_post_tables.
  - apply api_whitelist_delete_tables.
Qed.

Lemma exit_settle_response (plateNumber : string) (v : Vehicle) (now : Z) (db : Db) :
  fst (exit_settle plateNumber v now db) =
  Returned (JsonExit (amount_of (vehicle_has_package v)
                                (halfDays_of (now - vehicle_entry_time v)))
                     (halfDays_of (now - vehicle_entry_time v))
                     (negb (vehicle_has_package v =? 0)%Z)
                     (vehicle_entry_time v) now).
Proof. reflexivity. Qed.

(** Whitelist additions and removals leave the active record of every
    plate, with the flag stored at entry, as it is. *)
Lemma whitelist_changes_keep_record
  (ws : list whitelist_operation) (db : Db) (plateNumber : string) :
  active_record plateNumber (run (map of_whitelist ws) db) = active_record plateNumber db.
Proof.
  unfold active_record. now destruct (run_whitelist_tables ws db) as (_ & -> & _).
Qed.

(** C9 (defect of the code): Exit returns no amount, half days or flag, in
    either of two runs that differ in a whitelist change during the stay.
    On the seeded database 苏E99999 is parked without package and is not
    whitelisted; in the second run the plate is put on the whitelist during
    the stay. Its record, with the stored flag, is the same in both runs,
    yet Exit 13 hours after the entry throws on its vehicle query in both
    and is answered with status 500. The fee stage, run on the record,
    answers 40, 2 half days and no package in both runs: it reads the
    stored flag and never the whitelist. *)
Theorem C9_exit_snapshot_unreached :
  exists v : Vehicle,
    active_record "苏E99999" (seeded 0) = Some v
    /\ active_record "苏E99999" (run [WhitelistAdd "苏E99999" "VIP" seed_now] (seeded 0)) = Some v
    /\ isWhitelisted "苏E99999" (seeded 0) = false
    /\ isWhitelisted "苏E99999" (run [WhitelistAdd "苏E99999" "VIP" seed_now] (seeded 0)) = true
    /\ express (api_exit "苏E99999" (vehicle_entry_time v + 13 * hour_ms)) (seeded 0)
       = (InternalServerError too_few, seeded 0)
    /\ express (api_exit "苏E99999" (vehicle_entry_time v + 13 * hour_ms))
               (run [WhitelistAdd "苏E99999" "VIP" seed_now] (seeded 0))
       = (InternalServerError too_few,
          run [WhitelistAdd "苏E99999" "VIP" seed_now] (seeded 0))
    /\ fst (exit_settle "苏E99999" v (vehicle_entry_time v + 13 * hour_ms) (seeded 0))
       = Returned (JsonExit 40 2 false (vehicle_entry_time v)
                            (vehicle_entry_time v + 13 * hour_ms))
    /\ fst (exit_settle "苏E99999" v (vehicle_entry_time v + 13 * hour_ms)
                        (run [WhitelistAdd "苏E99999" "VIP" seed_now] (seeded 0)))
       = Returned (JsonExit 40 2 false (vehicle_entry_time v)
                            (vehicle_entry_time v + 13 * hour_ms)).
Proof.
  eexists. split; [vm_compute; reflexivity|].
  split; [vm_compute; reflexivity|]. split; [vm_compute; reflexivity|].
  split; [vm_compute; reflexivity|].
  split; [unfold express; now rewrite api_exit_throws|].
  split; [unfold express; now rewrite api_exit_throws|].
  split; reflexivity.
Qed.

(** ** The handlers at concrete requests *)

(** C1 (defect of the code): the whitelist query of Entry is run without
    the plate, so no flag is computed at all. On the seeded database the
    plate 沪C66666 is whitelisted, not parked, and spaces are available, yet
    Entry throws, is answered with status 500 and writes nothing; no Entry
    ever answers with the package flag set. *)
Theorem C1_entry_lookup_without_plate :
  isWhitelisted "沪C66666" (seeded 0) = true
  /\ active_record "沪C66666" (seeded 0) = None
  /\ existsb is_available (spaces (seeded 0)) = true
  /\ express (api_entry "沪C66666" seed_now) (seeded 0)
     = (InternalServerError too_few, seeded 0)
  /\ forall plateNumber now db spaceId,
       fst (express (api_entry plateNumber now) db) <> JsonEntry spaceId true.
Proof.
  split; [vm_compute; reflexivity|]. split; [vm_compute; reflexivity|].
  split; [vm_compute; reflexivity|]. split.
  - unfold express. now rewrite api_entry_throws.
  - intros p n db i. unfold express. rewrite api_entry_throws. discriminate.
Qed.

(** C2 (defect of the code): a plate whose visit has ended cannot enter
    again. After the visit of 苏E99999 is settled on the seeded database the
    plate has no active record and spaces are available; Entry throws on
    its whitelist query, and the stage behind it, run with either flag,
    throws on the UNIQUE plate_number of the vehicles table, because the
    closed record is kept. Nothing is written in either case. *)
Theorem C2_reentry_after_exit_fails :
  let db := close_visit "苏E99999" seed_now (seeded 0) in
  active_record "苏E99999" db = None
  /\ existsb (fun v => String.eqb (vehicle_plate_number v) "苏E99999") (vehicles db) = true
  /\ existsb is_available (spaces db) = true
  /\ express (api_entry "苏E99999" (seed_now + hour_ms)) db = (InternalServerError too_few, db)
  /\ forall hasPackage,
       entry_allocate "苏E99999" hasPackage (seed_now + hour_ms) db
       = (Threw (SqliteError "UNIQUE constraint failed: vehicles.plate_number"), db).
Proof.
  intros db.
  split; [vm_compute; reflexivity|]. split; [vm_compute; reflexivity|].
  split; [vm_compute; reflexivity|]. split.
  - unfold express. now rewrite api_entry_throws.
  - intros [|]; vm_compute; reflexivity.
Qed.

(** C5 (defect of the code): the vehicle query of Exit is run without the
    plate, so Exit never reaches its fee. On the seeded database 苏E99999 is
    parked without package; Exit 13 hours after its entry throws, is
    answered with status 500 and neither closes the record nor logs. The
    fee stage itself, run on that record, answers 2 half days and 40, and 0
    for the same record with the package flag set. *)
Theorem C5_exit_fee_unreached :
  exists v : Vehicle,
    active_record "苏E99999" (seeded 0) = Some v
    /\ vehicle_has_package v = 0
    /\ express (api_exit "苏E99999" (vehicle_entry_time v + 13 * hour_ms)) (seeded 0)
       = (InternalServerError too_few, seeded 0)
    /\ fst (exit_settle "苏E99999" v (vehicle_entry_time v + 13 * hour_ms) (seeded 0))
       = Returned (JsonExit 40 2 false (vehicle_entry_time v)
                            (vehicle_entry_time v + 13 * hour_ms))
    /\ halfDays_of (13 * hour_ms) = 2
    /\ amount_of 1 (halfDays_of (13 * hour_ms)) = 0.
Proof.
  eexists. split; [vm_compute; reflexivity|]. split; [reflexivity|].
  split; [unfold express; now rewrite api_exit_throws|].
  repeat split.
Qed.

(** C6 (defect of the code): with every space of the seeded lot occupied,
    Entry writes nothing, but it fails on its whitelist query with status
    500, not with the lot-full answer; the stage behind the query, run with
    either flag, gives the lot-full answer and writes nothing. *)
Theorem C6_entry_full_lot :
  existsb is_available (spaces full_lot) = false
  /\ List.length (spaces full_lot) = 50%nat
  /\ express (api_entry "浙A12345" seed_now) full_lot = (InternalServerError too_few, full_lot)
  /\ fst (express (api_entry "浙A12345" seed_now) full_lot) <> LotFullError
  /\ forall hasPackage,
       entry_allocate "浙A12345" hasPackage seed_now full_lot = (Returned LotFullError, full_lot).
Proof.
  assert (H : existsb is_available (spaces full_lot) = false) by (vm_compute; reflexivity).
  split; [exact H|]. split; [vm_compute; reflexivity|].
  split; [unfold express; now rewrite api_entry_throws|].
  split; [unfold express; rewrite api_entry_throws; discriminate|].
  intros hp. apply entry_allocate_lot_full, H.
Qed.

(** C7 (defect of the code): Exit for a plate with no active record writes
    nothing and logs nothing, but it fails on its vehicle query with status
    500, not with the not-parked answer (status 404). *)
Theorem C7_exit_unknown_plate :
  active_record "湘A00000" (seeded 0) = None
  /\ express (api_exit "湘A00000" seed_now) (seeded 0) = (InternalServerError too_few, seeded 0)
  /\ fst (express (api_exit "湘A00000" seed_now) (seeded 0)) <> NotParkedError.
Proof.
  split; [vm_compute; reflexivity|].
  split; [unfold express; now rewrite api_exit_throws|].
  unfold express; rewrite api_exit_throws; discriminate.
Qed.

(** C10 (defect of the code): the fee stage has no guard on the sign of the
    duration, but Exit never reaches it. For 苏E99999 of the seeded database
    and a clock 13 hours before its entry time, Exit throws on its vehicle
    query and records nothing, while the stage run on the record answers
    and logs -1 half day and the fee -20. *)
Theorem C10_negative_duration_unreached :
  exists v : Vehicle,
    active_record "苏E99999" (seeded 0) = Some v
    /\ express (api_exit "苏E99999" (vehicle_entry_time v - 13 * hour_ms)) (seeded 0)
       = (InternalServerError too_few, seeded 0)
    /\ fst (exit_settle "苏E99999" v (vehicle_entry_time v - 13 * hour_ms) (seeded 0))
       = Returned (JsonExit (-20) (-1) false (vehicle_entry_time v)
                            (vehicle_entry_time v - 13 * hour_ms))
    /\ option_map (fun l => (log_amount l, log_duration_half_days l))
         (hd_error (rev (logs (snd (exit_settle "苏E99999" v
                                        (vehicle_entry_time v - 13 * hour_ms) (seeded 0))))))
       = Some (-20, -1).
Proof.
  eexists. split; [vm_compute; reflexivity|].
  split; [unfold express; now rewrite api_exit_throws|].
  split; vm_compute; reflexivity.
Qed.

(** ** The stages keep the lot consistent

    The count of C4 does not rest on the lookups failing: the entry and
    exit stages themselves keep occupied spaces and active records in
    step. *)

Lemma ascending_NoDup (l : list Z) : ascending l = true -> NoDup l.
Proof.
  induction l as [|x l IH]; intros H; constructor.
  - intros Hin. pose proof (ascending_head _ _ _ H Hin). lia.
  - apply IH. eapply ascending_tail; eauto.
Qed.

Lemma occupied_ids_unique (rows : list Space) :
  NoDup (map space_id rows) -> NoDup (map space_id (filter is_occupied rows)).
Proof.
  induction rows as [|x rows IH]; simpl; intros H; [constructor|].
  inversion H as [|? ? Hx Hl]; subst.
  destruct (is_occupied x); simpl; auto. constructor; auto.
  intros Hin. apply Hx. apply in_map_iff in Hin as (y & Hy & Hin).
  apply filter_In in Hin as [Hin _]. rewrite <- Hy. now apply in_map.
Qed.

Lemma consistent_counts (db : Db) :
  consistent db -> occupied_count db = active_count db.
Proof.
  intros [Hs _ _ Ha Hoa].
  unfold occupied_count, active_count.
  rewrite <- (length_map space_id), <- (length_map vehicle_space_id).
  fold (occupied_spaces db) (active_spaces db).
  apply Nat.le_antisymm; apply NoDup_incl_length.
  - now apply occupied_ids_unique.
  - intros i. apply Hoa.
  - exact Ha.
  - intros i. apply Hoa.
Qed.

Lemma update_where_ids (k : Z) (status : string) (l : list Space) :
  map space_id (update_where (fun s => Z.eqb (space_id s) k) (set_status status) l)
  = map space_id l.
Proof.
  induction l as [|x l IH]; simpl; [reflexivity|].
  rewrite IH. now destruct (Z.eqb (space_id x) k).
Qed.

Lemma occupied_after_update (k : Z) (status : string) (l : list Space) (i : Z) :
  In i (map space_id (filter is_occupied
          (update_where (fun s => Z.eqb (space_id s) k) (set_status status) l)))
  <-> (i <> k /\ In i (map space_id (filter is_occupied l)))
      \/ (i = k /\ String.eqb status "occupied" = true /\ In k (map space_id l)).
Proof.
  induction l as [|x l IH]; simpl; [tauto|].
  destruct (Z.eqb_spec (space_id x) k) as [E|E].
  - unfold is_occupied at 1; simpl.
    destruct (String.eqb status "occupied"); destruct (is_occupied x); simpl;
      rewrite IH; intuition (try congruence; try lia).
  - destruct (is_occupied x); simpl; rewrite IH; intuition (try congruence; try lia).
Qed.

Lemma update_vehicle_ids (k t : Z) (l : list Vehicle) :
  map vehicle_id (update_where (fun x => Z.eqb (vehicle_id x) k) (set_exit_time t) l)
  = map vehicle_id l.
Proof.
  induction l as [|x l IH]; simpl; [reflexivity|].
  rewrite IH. now destruct (Z.eqb (vehicle_id x) k).
Qed.

Lemma update_where_absent (k t : Z) (l : list Vehicle) :
  ~ In k (map vehicle_id l) ->
  update_where (fun x => Z.eqb (vehicle_id x) k) (set_exit_time t) l = l.
Proof.
  induction l as [|x l IH]; simpl; intros H; [reflexivity|].
  destruct (Z.eqb_spec (vehicle_id x) k) as [E|E]; [tauto|].
  rewrite IH; tauto.
Qed.

(** Closing the record [v] takes exactly its space out of the list of the
    spaces of active records. *)
Lemma active_after_exit (v : Vehicle) (t : Z) (l : list Vehicle) :
  NoDup (map vehicle_id l) -> In v l -> is_active v = true ->
  exists l1 l2,
    map vehicle_space_id (filter is_active l) = (l1 ++ vehicle_space_id v :: l2)%list
    /\ map vehicle_space_id
         (filter is_active
            (update_where (fun x => Z.eqb (vehicle_id x) (vehicle_id v)) (set_exit_time t) l))
       = (l1 ++ l2)%list.
Proof.
  induction l as [|x l IH]; simpl; intros Hnd Hin Hv; [contradiction|].
  inversion Hnd as [|? ? Hx Hl]; subst.
  destruct (Z.eqb_spec (vehicle_id x) (vehicle_id v)) as [E|E].
  - assert (x = v) as ->.
    { destruct Hin as [|Hin]; [assumption|].
      exfalso. apply Hx. rewrite E. now apply in_map. }
    rewrite Hv. simpl. rewrite (update_where_absent _ _ _ Hx).
    exists [], (map vehicle_space_id (filter is_active l)). split; reflexivity.
  - destruct Hin as [->|Hin]; [congruence|].
    destruct (IH Hl Hin Hv) as (l1 & l2 & E1 & E2).
    destruct (is_active x); simpl.
    + exists (vehicle_space_id x :: l1), l2. rewrite E1, E2. split; reflexivity.
    + exists l1, l2. split; assumption.
Qed.

Lemma findAvailable_some (hasPackage : bool) (db : Db) (id : Z) :
  fst (findAvailable hasPackage db) = Returned (Some id) ->
  exists s, In s (spaces db) /\ space_id s = id /\ is_available s = true.
Proof.
  rewrite findAvailable_run. simpl. intros H.
  assert (Hany : option_map space_id (find is_available (spaces db)) = Some id ->
                 exists s, In s (spaces db) /\ space_id s = id /\ is_available s = true).
  { destruct (find is_available (spaces db)) as [s|] eqn:F; simpl; [|discriminate].
    intros [= <-]. apply find_some in F as [Hin Hp]. eauto. }
  destruct hasPackage; [|apply Hany; congruence].
  destruct (find (fun s => is_available s && is_package s) (spaces db)) as [s|] eqn:F.
  - apply find_some in F as [Hin Hp]. apply andb_true_iff in Hp as [Hp _].
    exists s. repeat split; auto. congruence.
  - apply Hany; congruence.
Qed.

(** The entry stage, case by case. *)
Lemma entry_allocate_run (plateNumber : string) (hasPackage : bool) (now : Z) (db : Db) :
  entry_allocate plateNumber hasPackage now db =
  match fst (findAvailable hasPackage db) with
  | Returned (Some id) =>
      if existsb (fun v => String.eqb (vehicle_plate_number v) plateNumber) (vehicles db)
      then (Threw (SqliteError "UNIQUE constraint failed: vehicles.plate_number"), db)
      else if negb (existsb (fun s => Z.eqb (space_id s) id) (spaces db))
      then (Threw (SqliteError "FOREIGN KEY constraint failed"), db)
      else (Returned (JsonEntry id hasPackage),
            mkDb (update_where (fun s => Z.eqb (space_id s) id)
                               (set_status "occupied") (spaces db))
                 (package_whitelist db)
                 (vehicles db ++ [mkVehicle (seq_vehicles db + 1) plateNumber
                                            (if hasPackage then 1 else 0) now None id])
                 (logs db ++ [mkLogRow (seq_logs db + 1) plateNumber "entry" now 0 0])
                 (seq_spaces db) (seq_package_whitelist db)
                 (seq_vehicles db + 1) (seq_logs db + 1))
  | _ => (Returned LotFullError, db)
  end.
Proof.
  unfold entry_allocate, bind. rewrite findAvailable_run. simpl.
  match goal with |- context [match ?r with Some _ => _ | None => _ end] =>
    destruct r as [id|] end; [|reflexivity].
  unfold stmt_run, bind; simpl.
  destruct (existsb _ (vehicles db)); [reflexivity|].
  destruct (existsb _ (spaces db)); reflexivity.
Qed.

Lemma NoDup_snoc {A} (x : A) (l : list A) :
  NoDup l -> ~ In x l -> NoDup (l ++ [x]).
Proof.
  induction l as [|y l IH]; simpl; intros Hnd Hx.
  - constructor; [tauto | constructor].
  - inversion Hnd as [|? ? Hy Hl]; subst. constructor.
    + rewrite in_app_iff. simpl. intuition congruence.
    + apply IH; tauto.
Qed.

Lemma NoDup_map_inj {A B} (f : A -> B) (l : list A) (a b : A) :
  NoDup (map f l) -> In a l -> In b l -> f a = f b -> a = b.
Proof.
  induction l as [|x l IH]; simpl; intros Hnd Ha Hb E; [contradiction|].
  inversion Hnd as [|? ? Hx Hl]; subst.
  destruct Ha as [->|Ha], Hb as [->|Hb]; auto.
  - exfalso. apply Hx. rewrite E. now apply in_map.
  - exfalso. apply Hx. rewrite <- E. now apply in_map.
Qed.

Lemma available_not_occupied (s : Space) :
  is_available s = true -> is_occupied s = false.
Proof.
  unfold is_available, is_occupied. intros H. apply String.eqb_eq in H. now rewrite H.
Qed.

Lemma entry_allocate_consistent (plateNumber : string) (hasPackage : bool) (now : Z) (db : Db) :
  consistent db -> consistent (snd (entry_allocate plateNumber hasPackage now db)).
Proof.
  intros C. rewrite entry_allocate_run.
  destruct (fst (findAvailable hasPackage db)) as [[id|]|] eqn:F; simpl; try assumption.
  destruct (existsb _ (vehicles db)); simpl; try assumption.
  destruct (existsb _ (spaces db)) eqn:Hid; simpl; try assumption.
  destruct (findAvailable_some _ _ _ F) as (s & Hs & Hsid & Hav).
  destruct C as [Hsp Hvid Hseq Hact Hoa].
  assert (Hfresh : ~ In id (active_spaces db)).
  { intros Hin. apply Hoa in Hin. unfold occupied_spaces in Hin.
    apply in_map_iff in Hin as (s' & Hs'id & Hs'). apply filter_In in Hs' as [Hs' Hocc].
    assert (s' = s) as -> by (eapply NoDup_map_inj; eauto; congruence).
    rewrite (available_not_occupied _ Hav) in Hocc. discriminate. }
  assert (Hact' : active_spaces
                    (mkDb (update_where (fun s => Z.eqb (space_id s) id)
                                        (set_status "occupied") (spaces db))
                          (package_whitelist db)
                          (vehicles db ++ [mkVehicle (seq_vehicles db + 1) plateNumber
                                                     (if hasPackage then 1 else 0) now None id])
                          (logs db ++ [mkLogRow (seq_logs db + 1) plateNumber "entry" now 0 0])
                          (seq_spaces db) (seq_package_whitelist db)
                          (seq_vehicles db + 1) (seq_logs db + 1))
                  = (active_spaces db ++ [id])%list).
  { unfold active_spaces; simpl. now rewrite filter_app, map_app. }
  constructor; simpl.
  - now rewrite update_where_ids.
  - rewrite map_app. simpl. apply NoDup_snoc; auto.
    intros Hin. apply in_map_iff in Hin as (v & Hv & Hin). specialize (Hseq v Hin). lia.
  - intros v Hin. apply in_app_iff in Hin as [Hin|[<-|[]]]; simpl; [|lia].
    specialize (Hseq v Hin). lia.
  - rewrite Hact'. now apply NoDup_snoc.
  - intros i. rewrite Hact'. unfold occupied_spaces; simpl.
    rewrite occupied_after_update, in_app_iff. fold (occupied_spaces db).
    rewrite (Hoa i). simpl.
    assert (Hin : In id (map space_id (spaces db))) by (rewrite <- Hsid; now apply in_map).
    destruct (Z.eq_dec i id) as [->|Hne]; intuition congruence.
Qed.

Lemma exit_settle_consistent (plateNumber : string) (v : Vehicle) (now : Z) (db : Db) :
  consistent db -> active_record plateNumber db = Some v ->
  consistent (snd (exit_settle plateNumber v now db)).
Proof.
  intros [Hsp Hvid Hseq Hact Hoa] Hrec. rewrite exit_settle_run. simpl.
  apply find_some in Hrec as [Hin Hv]. simpl in Hv. apply andb_true_iff in Hv as [_ Hv].
  change (is_active v = true) in Hv.
  destruct (active_after_exit v now _ Hvid Hin Hv) as (l1 & l2 & E1 & E2).
  fold (active_spaces db) in E1.
  constructor; simpl.
  - now rewrite update_where_ids.
  - now rewrite update_vehicle_ids.
  - intros y Hy. unfold update_where in Hy. apply in_map_iff in Hy as (x & <- & Hx).
    specialize (Hseq x Hx). now destruct (Z.eqb (vehicle_id x) (vehicle_id v)).
  - unfold active_spaces; simpl. rewrite E2. rewrite E1 in Hact.
    now apply NoDup_remove_1 in Hact.
  - intros i. unfold active_spaces, occupied_spaces; simpl.
    rewrite E2, occupied_after_update. fold (occupied_spaces db). rewrite (Hoa i), E1.
    rewrite E1 in Hact. apply NoDup_remove_2 in Hact.
    rewrite !in_app_iff in *. simpl.
    destruct (Z.eq_dec i (vehicle_space_id v)) as [->|Hne]; intuition congruence.
Qed.

Lemma consistent_same_tables (db db' : Db) :
  spaces db' = spaces db -> vehicles db' = vehicles db ->
  seq_vehicles db' = seq_vehicles db ->
  consistent db -> consistent db'.
Proof.
  intros Es Ev Eq [Hsp Hvid Hseq Hact Hoa].
  constructor; unfold active_spaces, occupied_spaces in *; rewrite ?Es, ?Ev, ?Eq; assumption.
Qed.

Lemma api_whitelist_post_seq (plateNumber notes : string) (now : Z) (db : Db) :
  seq_vehicles (step (WhitelistAdd plateNumber notes now) db) = seq_vehicles db.
Proof.
  unfold step, express, handler, api_whitelist_post, try_catch, bind, stmt_run, bind; simpl.
  destruct (existsb _ (package_whitelist db)); reflexivity.
Qed.

Lemma step_consistent (op : operation) (db : Db) :
  off_occupied op db = true -> consistent db -> consistent (step op db).
Proof.
  destruct op as [p n|p n|p nt n|p|i st]; intros H C.
  - now rewrite step_entry.
  - now rewrite step_exit.
  - destruct (api_whitelist_post_tables p nt n db) as (Es & Ev & _).
    apply (consistent_same_tables db); [exact Es | exact Ev | apply api_whitelist_post_seq | exact C].
  - destruct (api_whitelist_delete_tables p db) as (Es & Ev & _).
    apply (consistent_same_tables db); [exact Es | exact Ev | | exact C].
    rewrite step_whitelist_remove. now destruct (String.eqb p "").
  - simpl in H. apply andb_true_iff in H as [Hst Hl]. apply negb_true_iff in Hst.
    unfold step, express, handler. rewrite api_reserve_run. simpl.
    destruct C as [Hsp Hvid Hseq Hact Hoa].
    constructor; simpl; auto.
    + now rewrite update_where_ids.
    + intros k. rewrite <- (Hoa k). unfold occupied_spaces; simpl.
      now rewrite (occupied_update_off _ _ _ Hst Hl).
Qed.

Lemma seeded_consistent (boot : Z) : consistent (seeded boot).
Proof.
  assert (H1 : ascending (map space_id (spaces (seeded boot))) = true)
    by (vm_compute; reflexivity).
  assert (H2 : ascending (map vehicle_id (vehicles (seeded boot))) = true)
    by (vm_compute; reflexivity).
  assert (H3 : forallb (fun v => vehicle_id v <=? seq_vehicles (seeded boot))%Z
                       (vehicles (seeded boot)) = true) by (vm_compute; reflexivity).
  assert (H4 : ascending (active_spaces (seeded boot)) = true)
    by (vm_compute; reflexivity).
  assert (E : occupied_spaces (seeded boot) = active_spaces (seeded boot))
    by (vm_compute; reflexivity).
  revert H1 H2 H3 H4 E. generalize (seeded boot) as db. intros db H1 H2 H3 H4 E.
  constructor; try now apply ascending_NoDup.
  - intros v Hin. rewrite forallb_forall in H3. apply Z.leb_le. now apply H3.
  - intros i. rewrite E. tauto.
Qed.

Lemma stage_step_consistent (db db' : Db) :
  stage_step db db' -> consistent db -> consistent db'.
Proof.
  intros [p hp n d|p v n d Hrec|op d Hop] C.
  - now apply entry_allocate_consistent.
  - now apply exit_settle_consistent.
  - now apply step_consistent.
Qed.

(** With the stages behind the lookups run directly, and toggles off
    occupied spaces, every state reached from the seeded one is consistent,
    so it has as many occupied spaces as active records. *)
Lemma stage_reachable_counts (boot : Z) (db : Db) :
  stage_reachable boot db -> consistent db /\ occupied_count db = active_count db.
Proof.
  intros R. assert (C : consistent db).
  { induction R as [|db db' R IH S]; [apply seeded_consistent|].
    eapply stage_step_consistent; eauto. }
  split; [exact C | now apply consistent_counts].
Qed.

(** ** The fee stage in general *)

(** On any record the exit stage bills the ceiling of the duration in half
    days (at least 1 for a positive duration, at most 0 for a negative
    one), charges 20 per half day unless the stored flag is set, and logs
    what it answers. *)
Lemma exit_settle_fee (plateNumber : string) (v : Vehicle) (now : Z) (db : Db) :
  let d := now - vehicle_entry_time v in
  let h := halfDays_of d in
  let amount := if (vehicle_has_package v =? 0)%Z then h * 20 else 0 in
  halfDayMs * (h - 1) < d <= halfDayMs * h
  /\ (0 < d -> 1 <= h)
  /\ (d < 0 -> h <= 0)
  /\ fst (exit_settle plateNumber v now db)
     = Returned (JsonExit amount h (negb (vehicle_has_package v =? 0)%Z)
                          (vehicle_entry_time v) now)
  /\ hd_error (rev (logs (snd (exit_settle plateNumber v now db))))
     = Some (mkLogRow (seq_logs db + 1) plateNumber "exit" now amount h).
Proof.
  intros d h amount.
  assert (Hc : halfDayMs * (h - 1) < d <= halfDayMs * h)
    by (apply Math_ceil_div_spec; reflexivity).
  assert (Hm : halfDayMs = 43200000) by reflexivity.
  split; [exact Hc|]. split; [nia|]. split; [nia|]. split; [reflexivity|].
  rewrite exit_settle_run. simpl. now rewrite rev_unit.
Qed.

(** ** Scan order of the spaces table *)

Lemma step_space_ids (op : operation) (db : Db) :
  map space_id (spaces (step op db)) = map space_id (spaces db).
Proof.
  destruct op as [p n|p n|p nt n|p|i st].
  - now rewrite step_entry.
  - now rewrite step_exit.
  - now destruct (api_whitelist_post_tables p nt n db) as (-> & _).
  - now destruct (api_whitelist_delete_tables p db) as (-> & _).
  - unfold step, express, handler. rewrite api_reserve_run. simpl. apply update_where_ids.
Qed.

(** Every state reached from the seeded one has its spaces in ascending
    order of identifier, as the space selection assumes. *)
Lemma run_scan_order (boot : Z) (ops : list operation) :
  ascending (map space_id (spaces (run ops (seeded boot)))) = true.
Proof.
  assert (H : ascending (map space_id (spaces (seeded boot))) = true)
    by (vm_compute; reflexivity).
  revert H. generalize (seeded boot) as db. induction ops as [|op ops IH]; intros db H.
  - exact H.
  - simpl. apply IH. now rewrite step_space_ids.
Qed.

(** * Further properties of the server *)

(** ** The whitelist registry *)

Lemma isWhitelisted_existsb (plate : string) (db : Db) :
  isWhitelisted plate db
  = existsb (fun w => String.eqb (wl_plate_number w) plate) (package_whitelist db).
Proof.
  unfold isWhitelisted. induction (package_whitelist db) as [|w l IH]; simpl; [reflexivity|].
  destruct (String.eqb (wl_plate_number w) plate); simpl; [reflexivity | exact IH].
Qed.

Lemma api_whitelist_post_run (plateNumber notes : string) (now : Z) (db : Db) :
  express (api_whitelist_post plateNumber notes now) db =
  if isWhitelisted plateNumber db
  then (DuplicateError, db)
  else (JsonSuccess,
        mkDb (spaces db)
             (package_whitelist db
              ++ [mkWhitelistEntry (seq_package_whitelist db + 1) plateNumber now notes])
             (vehicles db) (logs db)
             (seq_spaces db) (seq_package_whitelist db + 1) (seq_vehicles db) (seq_logs db)).
Proof.
  rewrite isWhitelisted_existsb.
  unfold express, api_whitelist_post, try_catch, bind, stmt_run, bind; simpl.
  destruct (existsb _ (package_whitelist db)); reflexivity.
Qed.

Lemma existsb_snoc {A} (p : A -> bool) (l : list A) (x : A) :
  existsb p (l ++ [x]) = existsb p l || p x.
Proof. rewrite existsb_app. simpl. now rewrite orb_false_r. Qed.

(** X1: adding a plate that is not registered answers success and
    registers exactly that plate: afterwards a plate is whitelisted when it
    was before or is the one added. *)
Theorem whitelist_add_registers (plateNumber notes : string) (now : Z) (db : Db) :
  isWhitelisted plateNumber db = false ->
  fst (express (api_whitelist_post plateNumber notes now) db) = JsonSuccess
  /\ forall other,
       isWhitelisted other (step (WhitelistAdd plateNumber notes now) db)
       = isWhitelisted other db || String.eqb plateNumber other.
Proof.
  intros H. unfold step, handler. rewrite api_whitelist_post_run, H. split; [reflexivity|].
  intros other. rewrite !isWhitelisted_existsb. simpl. rewrite existsb_snoc. reflexivity.
Qed.

Lemma whitelist_add_registers_witness :
  isWhitelisted "赣A10001" (seeded 0) = false
  /\ fst (express (api_whitelist_post "赣A10001" "note" 7) (seeded 0)) = JsonSuccess
  /\ forall other,
       isWhitelisted other (step (WhitelistAdd "赣A10001" "note" 7) (seeded 0))
       = isWhitelisted other (seeded 0) || String.eqb "赣A10001" other.
Proof.
  split; [vm_compute; reflexivity|].
  apply (whitelist_add_registers "赣A10001" "note" 7 (seeded 0)). vm_compute; reflexivity.
Defined.

(** X2: adding a plate that is already registered is answered with the
    duplicate error (status 400) and changes nothing, whatever the note. *)
Theorem whitelist_add_duplicate (plateNumber notes : string) (now : Z) (db : Db) :
  isWhitelisted plateNumber db = true ->
  express (api_whitelist_post plateNumber notes now) db = (DuplicateError, db).
Proof. intros H. now rewrite api_whitelist_post_run, H. Qed.

Lemma whitelist_add_duplicate_witness :
  isWhitelisted "京A00001" (seeded 0) = true
  /\ express (api_whitelist_post "京A00001" "again" 7) (seeded 0) = (DuplicateError, seeded 0).
Proof.
  split; [vm_compute; reflexivity|].
  apply (whitelist_add_duplicate "京A00001" "again" 7 (seeded 0)). vm_compute; reflexivity.
Defined.

Lemma existsb_filter {A} (p q : A -> bool) (l : list A) :
  existsb p (filter q l) = existsb (fun x => p x && q x) l.
Proof.
  induction l as [|x l IH]; simpl; [reflexivity|].
  destruct (q x); simpl; rewrite IH; [now rewrite andb_true_r | now rewrite andb_false_r].
Qed.

(** X3: removing a plate, given as a non-empty path segment, always
    answers success, whether or not the plate is registered; afterwards a
    plate is whitelisted exactly when it was before and is not the one
    removed. *)
Theorem whitelist_remove_unregisters (plate : string) (db : Db) :
  plate <> "" ->
  fst (express (api_whitelist_delete plate) db) = JsonSuccess
  /\ forall other,
       isWhitelisted other (step (WhitelistRemove plate) db)
       = isWhitelisted other db && negb (String.eqb plate other).
Proof.
  intros Hne. assert (E : String.eqb plate "" = false) by now apply String.eqb_neq.
  split; [unfold express, api_whitelist_delete; now rewrite E|].
  intros other. rewrite step_whitelist_remove, E, !isWhitelisted_existsb. simpl.
  rewrite existsb_filter.
  induction (package_whitelist db) as [|w l IH]; simpl; [reflexivity|]. rewrite IH.
  destruct (String.eqb_spec (wl_plate_number w) other) as [E1|E1];
    destruct (String.eqb_spec (wl_plate_number w) plate) as [E2|E2];
    destruct (String.eqb_spec plate other) as [E3|E3];
    try congruence; simpl;
    destruct (existsb (fun w0 => String.eqb (wl_plate_number w0) other) l); reflexivity.
Qed.

Lemma whitelist_remove_unregisters_witness :
  "京A00001" <> ""
  /\ fst (express (api_whitelist_delete "京A00001") (seeded 0)) = JsonSuccess
  /\ forall other,
       isWhitelisted other (step (WhitelistRemove "京A00001") (seeded 0))
       = isWhitelisted other (seeded 0) && negb (String.eqb "京A00001" other).
Proof.
  split; [discriminate|].
  apply (whitelist_remove_unregisters "京A00001" (seeded 0)). discriminate.
Defined.

(** X4: removing a plate twice leaves the database as after the first
    removal. *)
Theorem whitelist_remove_idempotent (plate : string) (db : Db) :
  step (WhitelistRemove plate) (step (WhitelistRemove plate) db)
  = step (WhitelistRemove plate) db.
Proof.
  rewrite !step_whitelist_remove. destruct (String.eqb plate ""); [reflexivity|].
  unfold with_whitelist; simpl. f_equal.
  induction (package_whitelist db) as [|w l IH]; simpl; [reflexivity|].
  destruct (String.eqb (wl_plate_number w) plate) eqn:E; simpl; [exact IH|].
  rewrite E. simpl. now rewrite IH.
Qed.

Lemma filter_all_true {A} (p : A -> bool) (l : list A) :
  existsb (fun x => negb (p x)) l = false -> filter p l = l.
Proof.
  induction l as [|x l IH]; simpl; [reflexivity|].
  destruct (p x); simpl; [|discriminate]. intros H. now rewrite IH.
Qed.

Lemma step_whitelist_add_fresh (plateNumber notes : string) (now : Z) (db : Db) :
  isWhitelisted plateNumber db = false ->
  step (WhitelistAdd plateNumber notes now) db
  = mkDb (spaces db)
         (package_whitelist db
          ++ [mkWhitelistEntry (seq_package_whitelist db + 1) plateNumber now notes])
         (vehicles db) (logs db)
         (seq_spaces db) (seq_package_whitelist db + 1) (seq_vehicles db) (seq_logs db).
Proof. intros H. unfold step, handler. now rewrite api_whitelist_post_run, H. Qed.

(** X5: adding a plate that is not registered and removing it again, the
    plate being a non-empty path segment, gives back the whitelist table,
    row for row; only the key sequence has moved on, so the next entry gets
    a fresh id. *)
Theorem whitelist_add_remove_roundtrip (plateNumber notes : string) (now : Z) (db : Db) :
  plateNumber <> "" ->
  isWhitelisted plateNumber db = false ->
  let db' := run [WhitelistAdd plateNumber notes now; WhitelistRemove plateNumber] db in
  package_whitelist db' = package_whitelist db
  /\ seq_package_whitelist db' = seq_package_whitelist db + 1
  /\ spaces db' = spaces db /\ vehicles db' = vehicles db /\ logs db' = logs db.
Proof.
  intros Hne H. assert (E : String.eqb plateNumber "" = false) by now apply String.eqb_neq.
  simpl. rewrite (step_whitelist_add_fresh _ _ _ _ H), step_whitelist_remove, E.
  simpl. repeat split.
  rewrite filter_app. simpl. rewrite String.eqb_refl. simpl. rewrite app_nil_r.
  apply filter_all_true. rewrite isWhitelisted_existsb in H.
  rewrite <- H. clear H. induction (package_whitelist db) as [|w l IH]; simpl; [reflexivity|].
  rewrite negb_involutive. now rewrite IH.
Qed.

Lemma whitelist_add_remove_roundtrip_witness :
  "赣A10001" <> ""
  /\ isWhitelisted "赣A10001" (seeded 0) = false
  /\ let db' := run [WhitelistAdd "赣A10001" "note" 7; WhitelistRemove "赣A10001"] (seeded 0) in
     package_whitelist db' = package_whitelist (seeded 0)
     /\ seq_package_whitelist db' = seq_package_whitelist (seeded 0) + 1
     /\ spaces db' = spaces (seeded 0) /\ vehicles db' = vehicles (seeded 0)
     /\ logs db' = logs (seeded 0).
Proof.
  split; [discriminate|]. split; [vm_compute; reflexivity|].
  apply (whitelist_add_remove_roundtrip "赣A10001" "note" 7 (seeded 0));
    [discriminate | vm_compute; reflexivity].
Defined.

Lemma whitelist_filter_unique (p : WhitelistEntry -> bool) (rows : list WhitelistEntry) :
  NoDup (map wl_plate_number rows) -> NoDup (map wl_plate_number (filter p rows)).
Proof.
  induction rows as [|w rows IH]; simpl; intros H; [constructor|].
  inversion H as [|? ? Hw Hl]; subst.
  destruct (p w); simpl; auto. constructor; auto.
  intros Hin. apply Hw. apply in_map_iff in Hin as (y & Hy & Hin).
  apply filter_In in Hin as [Hin _]. rewrite <- Hy. now apply in_map.
Qed.

Lemma step_whitelist_unique (op : operation) (db : Db) :
  NoDup (map wl_plate_number (package_whitelist db)) ->
  NoDup (map wl_plate_number (package_whitelist (step op db))).
Proof.
  intros H. destruct op as [p n|p n|p nt n|p|i st].
  - now rewrite step_entry.
  - now rewrite step_exit.
  - destruct (isWhitelisted p db) eqn:W.
    + unfold step, handler. now rewrite api_whitelist_post_run, W.
    + rewrite (step_whitelist_add_fresh _ _ _ _ W). simpl. rewrite map_app. simpl.
      apply NoDup_snoc; [exact H|].
      intros Hin. apply in_map_iff in Hin as (w & Hw & Hin).
      rewrite isWhitelisted_existsb in W.
      assert (T : existsb (fun w => String.eqb (wl_plate_number w) p) (package_whitelist db) = true).
      { apply existsb_exists. exists w. split; [exact Hin | now apply String.eqb_eq]. }
      congruence.
  - rewrite step_whitelist_remove. destruct (String.eqb p ""); [exact H|].
    simpl. now apply whitelist_filter_unique.
  - exact H.
Qed.

(** X6: in every state reached from the seeded one by the public
    operations, no plate is on the whitelist twice. *)
Theorem whitelist_plates_unique (boot : Z) (ops : list operation) :
  NoDup (map wl_plate_number (package_whitelist (run ops (seeded boot)))).
Proof.
  assert (H : NoDup (map wl_plate_number (package_whitelist (seeded boot)))).
  { assert (E : map wl_plate_number (package_whitelist (seeded boot))
                = map fst whitelistPlates) by (vm_compute; reflexivity).
    rewrite E. simpl.
    repeat constructor; simpl; intuition discriminate. }
  revert H. generalize (seeded boot) as db. induction ops as [|op ops IH]; intros db H.
  - exact H.
  - simpl. apply IH. now apply step_whitelist_unique.
Qed.

(** ** The reservation toggle, further *)

Lemma update_where_none (spaceId : Z) (status : string) (l : list Space) :
  existsb (fun s => Z.eqb (space_id s) spaceId) l = false ->
  update_where (fun s => Z.eqb (space_id s) spaceId) (set_status status) l = l.
Proof.
  induction l as [|x l IH]; simpl; [reflexivity|].
  destruct (Z.eqb (space_id x) spaceId); simpl; [discriminate|].
  intros H. now rewrite IH.
Qed.

(** X7: a reservation toggle for an identifier that no space has answers
    success all the same and changes nothing. *)
Theorem reserve_unknown_space (spaceId : Z) (status : string) (db : Db) :
  existsb (fun s => Z.eqb (space_id s) spaceId) (spaces db) = false ->
  express (api_reserve spaceId status) db = (JsonSuccess, db).
Proof.
  intros H. unfold express. rewrite api_reserve_run, (update_where_none _ _ _ H).
  destruct db; reflexivity.
Qed.

Lemma reserve_unknown_space_witness :
  existsb (fun s => Z.eqb (space_id s) 51) (spaces (seeded 0)) = false
  /\ express (api_reserve 51 "reserved") (seeded 0) = (JsonSuccess, seeded 0).
Proof.
  split; [vm_compute; reflexivity|].
  apply (reserve_unknown_space 51 "reserved" (seeded 0)). vm_compute; reflexivity.
Defined.

Lemma find_update_where_other (spaceId other : Z) (status : string) (l : list Space) :
  Z.eqb other spaceId = false ->
  option_map space_status
    (find (fun s => Z.eqb (space_id s) other)
          (update_where (fun s => Z.eqb (space_id s) spaceId) (set_status status) l))
  = option_map space_status (find (fun s => Z.eqb (space_id s) other) l).
Proof.
  intros Hne. induction l as [|x l IH]; simpl; [reflexivity|].
  destruct (Z.eqb_spec (space_id x) spaceId) as [E|E]; simpl.
  - assert (F : Z.eqb (space_id x) other = false) by (rewrite E, Z.eqb_sym; exact Hne).
    rewrite F. exact IH.
  - destruct (Z.eqb (space_id x) other); [reflexivity | exact IH].
Qed.

(** X8: a reservation toggle touches nothing but the status of its target:
    identifiers, codes and types of all spaces stay, the status of every
    other space stays, and so do the whitelist, the vehicles and the log. *)
Theorem reserve_only_target (spaceId : Z) (status : string) (db : Db) :
  let db' := step (Reserve spaceId status) db in
  map (fun s => (space_id s, space_code s, space_type s)) (spaces db')
  = map (fun s => (space_id s, space_code s, space_type s)) (spaces db)
  /\ (forall other,
        status_of other db'
        = if Z.eqb other spaceId
          then option_map (fun _ => status) (status_of other db)
          else status_of other db)
  /\ package_whitelist db' = package_whitelist db
  /\ vehicles db' = vehicles db
  /\ logs db' = logs db.
Proof.
  unfold step, express, handler. rewrite api_reserve_run. simpl. repeat split.
  - induction (spaces db) as [|x l IH]; simpl; [reflexivity|]. rewrite IH.
    now destruct (Z.eqb (space_id x) spaceId).
  - intros other. unfold status_of; simpl.
    destruct (Z.eqb other spaceId) eqn:E.
    + apply Z.eqb_eq in E. subst other. rewrite find_update_where_id.
      now destruct (find (fun s => Z.eqb (space_id s) spaceId) (spaces db)).
    + now apply find_update_where_other.
Qed.

(** ** The seed *)

Lemma run_space_ids (ops : list operation) :
  forall db, map space_id (spaces (run ops db)) = map space_id (spaces db).
Proof.
  induction ops as [|op ops IH]; intros db; simpl; [reflexivity|].
  now rewrite IH, step_space_ids.
Qed.

Lemma run_space_total (boot : Z) (ops : list operation) :
  List.length (spaces (run ops (seeded boot))) = 50%nat.
Proof.
  rewrite <- (length_map space_id), run_space_ids, length_map.
  vm_compute. reflexivity.
Qed.

(** X9: the seed runs at most once. On a database reached from the seeded
    one by any public operations, running the start-up seed again (with any
    clock) writes nothing: no space, whitelist entry, vehicle or log row is
    added a second time. *)
Theorem seed_not_repeated (boot boot' : Z) (ops : list operation) :
  seed boot' (run ops (seeded boot)) = (Returned tt, run ops (seeded boot)).
Proof.
  unfold seed. unfold bind at 1. unfold get_db.
  rewrite run_space_total. reflexivity.
Qed.

(** ** The dashboard figures *)

Lemma api_stats_run (db : Db) :
  api_stats db =
  (Returned
     (mkStats (Z.of_nat (List.length (spaces db)))
              (Z.of_nat (List.length (filter is_occupied (spaces db))))
              (Z.of_nat (List.length (filter is_reserved (spaces db))))
              (Z.of_nat (List.length (spaces db))
               - Z.of_nat (List.length (filter is_occupied (spaces db)))
               - Z.of_nat (List.length (filter is_reserved (spaces db))))
              (or_zero (match logs db with
                        | [] => None
                        | rows => Some (fold_right Z.add 0 (map log_amount rows))
                        end))
              (Z.of_nat (List.length (package_whitelist db)))), db).
Proof.
  unfold api_stats, stmt_count, stmt_sum_amount, bind; simpl.
  rewrite !filter_true. reflexivity.
Qed.

Lemma count_neither (l : list Space) :
  Z.of_nat (List.length l)
  - Z.of_nat (List.length (filter is_occupied l))
  - Z.of_nat (List.length (filter is_reserved l))
  = Z.of_nat (List.length (filter (fun s => negb (is_occupied s) && negb (is_reserved s)) l)).
Proof.
  induction l as [|x l IH]; [reflexivity|].
  cbn [filter]. destruct (is_occupied x) eqn:O; destruct (is_reserved x) eqn:R;
    cbn [negb andb List.length]; rewrite ?Nat2Z.inj_succ; try lia.
  unfold is_occupied, is_reserved in O, R.
  apply String.eqb_eq in O. rewrite O in R. discriminate.
Qed.

(** X10: the availableSpaces figure of /api/stats is the total minus the
    occupied and the reserved spaces, so it counts every space whose status
    is neither occupied nor reserved, whatever that status is. The handler
    writes nothing. *)
Theorem stats_available_is_the_rest (db : Db) :
  exists st : Stats,
    api_stats db = (Returned st, db)
    /\ availableSpaces st
       = Z.of_nat (List.length
                     (filter (fun s => negb (is_occupied s) && negb (is_reserved s))
                             (spaces db))).
Proof.
  eexists. split; [apply api_stats_run|]. simpl. apply count_neither.
Qed.

Lemma filter_agree {A} (p q : A -> bool) (l : list A) :
  forallb (fun x => Bool.eqb (p x) (q x)) l = true -> filter p l = filter q l.
Proof.
  induction l as [|x l IH]; simpl; [reflexivity|].
  intros H. apply andb_true_iff in H as [Hx Hl]. apply eqb_prop in Hx.
  rewrite Hx, (IH Hl). reflexivity.
Qed.

(** X11: when every space has one of the three statuses available,
    occupied, reserved, the availableSpaces figure of /api/stats is the
    number of spaces with status available. *)
Theorem stats_available_known_statuses (db : Db) :
  forallb (fun s => is_available s || is_occupied s || is_reserved s) (spaces db) = true ->
  exists st : Stats,
    api_stats db = (Returned st, db)
    /\ availableSpaces st = Z.of_nat (List.length (filter is_available (spaces db))).
Proof.
  intros H. eexists. split; [apply api_stats_run|]. simpl. rewrite count_neither.
  f_equal. f_equal. apply filter_agree.
  induction (spaces db) as [|x l IH]; simpl in *; [reflexivity|].
  apply andb_true_iff in H as [Hx Hl]. rewrite (IH Hl), andb_true_r.
  clear -Hx. unfold is_available, is_occupied, is_reserved in *.
  destruct (String.eqb_spec (space_status x) "available") as [E|E].
  - rewrite E. reflexivity.
  - simpl in Hx. destruct (String.eqb_spec (space_status x) "occupied") as [E1|E1].
    + reflexivity.
    + simpl in Hx. rewrite Hx. reflexivity.
Qed.

Lemma stats_available_known_statuses_witness :
  forallb (fun s => is_available s || is_occupied s || is_reserved s)
          (spaces (seeded 0)) = true
  /\ exists st : Stats,
       api_stats (seeded 0) = (Returned st, seeded 0)
       /\ availableSpaces st
          = Z.of_nat (List.length (filter is_available (spaces (seeded 0)))).
Proof.
  split; [vm_compute; reflexivity|].
  apply (stats_available_known_statuses (seeded 0)). vm_compute; reflexivity.
Defined.

(** X12: no public operation adds or removes a space: in every state
    reached from the seeded one /api/stats reports 50 spaces in total. *)
Theorem stats_total_is_fifty (boot : Z) (ops : list operation) :
  exists st : Stats,
    api_stats (run ops (seeded boot)) = (Returned st, run ops (seeded boot))
    /\ totalSpaces st = 50.
Proof.
  eexists. split; [apply api_stats_run|]. simpl. now rewrite run_space_total.
Qed.

Lemma api_stats_revenue (db : Db) :
  exists st : Stats,
    api_stats db = (Returned st, db) /\ totalRevenue st = sum_amounts db.
Proof.
  eexists. split; [apply api_stats_run|]. cbn [totalRevenue]. unfold sum_amounts.
  destruct (logs db) as [|r rows]; [reflexivity|].
  generalize (fold_right Z.add 0 (map log_amount (r :: rows))) as t. intros t.
  unfold or_zero. destruct (Z.eqb_spec t 0); congruence.
Qed.

(** X13: the totalRevenue figure of /api/stats is the sum of the amounts of
    all log rows, and 0 when the log is empty (the sum is then NULL). *)
Theorem stats_revenue_is_sum (db : Db) :
  exists st : Stats,
    api_stats db = (Returned st, db)
    /\ totalRevenue st = fold_right Z.add 0 (map log_amount (logs db)).
Proof. exact (api_stats_revenue db). Qed.

Lemma sum_amounts_append (db : Db) (plate action : string) (t amount h : Z) :
  sum_amounts (append_log db plate action t amount h) = sum_amounts db + amount.
Proof.
  unfold sum_amounts, append_log; simpl. rewrite map_app, fold_right_app. simpl.
  induction (map log_amount (logs db)) as [|x l IH]; simpl; [lia|]. rewrite IH. lia.
Qed.

(** X14: the exit stage of /api/exit, run on a record, raises the
    totalRevenue figure of /api/stats by exactly the amount it answers. *)
Theorem exit_settle_revenue (plateNumber : string) (v : Vehicle) (now : Z) (db : Db) :
  let db' := snd (exit_settle plateNumber v now db) in
  exists st st' : Stats,
    api_stats db = (Returned st, db)
    /\ api_stats db' = (Returned st', db')
    /\ totalRevenue st'
       = totalRevenue st
         + amount_of (vehicle_has_package v) (halfDays_of (now - vehicle_entry_time v)).
Proof.
  intros db'.
  destruct (api_stats_revenue db) as (st & E & R).
  destruct (api_stats_revenue db') as (st' & E' & R').
  exists st, st'. repeat split; auto. rewrite R, R'. unfold db'.
  rewrite exit_settle_run. simpl snd. now rewrite sum_amounts_append.
Qed.

(** ** The list of parked vehicles *)

Lemma filter_unique_id (k : Z) (l : list Space) :
  NoDup (map space_id l) ->
  filter (fun s => Z.eqb k (space_id s)) l
  = match find (fun s => Z.eqb k (space_id s)) l with Some s => [s] | None => [] end.
Proof.
  induction l as [|x l IH]; simpl; intros H; [reflexivity|].
  inversion H as [|? ? Hx Hl]; subst.
  destruct (Z.eqb_spec k (space_id x)) as [E|E]; [|now apply IH].
  f_equal. rewrite (IH Hl).
  destruct (find (fun s => Z.eqb k (space_id s)) l) as [s|] eqn:F; [|reflexivity].
  exfalso. apply find_some in F as [Hin Hk]. apply Z.eqb_eq in Hk.
  apply Hx. rewrite <- E, Hk. now apply in_map.
Qed.

Lemma join_active_rows (db : Db) (l : list Vehicle) :
  NoDup (map space_id (spaces db)) ->
  filter (fun row : VehicleRow => is_active (fst row)) (flat_map (join_spaces db) l)
  = map (fun v => (v, option_map space_code
                        (find (fun s => Z.eqb (vehicle_space_id v) (space_id s)) (spaces db))))
        (filter is_active l).
Proof.
  intros H. induction l as [|v l IH]; simpl; [reflexivity|].
  rewrite filter_app, IH. unfold join_spaces at 1. rewrite (filter_unique_id _ _ H).
  destruct (find (fun s => Z.eqb (vehicle_space_id v) (space_id s)) (spaces db)) eqn:F;
    simpl; destruct (is_active v); simpl; rewrite ?F; reflexivity.
Qed.

(** X15: with the primary key of spaces unique, /api/vehicles lists each
    active record exactly once, in table order, with the code of the space
    it points to (null when no such space exists), and lists no record that
    has an exit time. It writes nothing. *)
Theorem api_vehicles_lists_active (db : Db) :
  NoDup (map space_id (spaces db)) ->
  api_vehicles db =
  (Returned
     (map (fun v => (v, option_map space_code
                          (find (fun s => Z.eqb (vehicle_space_id v) (space_id s)) (spaces db))))
          (filter is_active (vehicles db))), db).
Proof.
  intros H. rewrite <- (join_active_rows db (vehicles db) H). reflexivity.
Qed.

Lemma api_vehicles_lists_active_witness :
  NoDup (map space_id (spaces (seeded 0)))
  /\ api_vehicles (seeded 0) =
     (Returned
        (map (fun v => (v, option_map space_code
                             (find (fun s => Z.eqb (vehicle_space_id v) (space_id s))
                                   (spaces (seeded 0)))))
             (filter is_active (vehicles (seeded 0)))), seeded 0).
Proof.
  assert (H : NoDup (map space_id (spaces (seeded 0))))
    by (apply ascending_NoDup; vm_compute; reflexivity).
  split; [exact H | apply (api_vehicles_lists_active (seeded 0)); exact H].
Defined.

(** ** Half days and fees *)

Lemma halfDays_unique (d h : Z) :
  halfDayMs * (h - 1) < d <= halfDayMs * h -> halfDays_of d = h.
Proof.
  intros H. pose proof (Math_ceil_div_spec d halfDayMs eq_refl) as C.
  fold (halfDays_of d) in C.
  assert (Hm : halfDayMs = 43200000) by reflexivity. nia.
Qed.

(** X16: the billed half days round up at the 12-hour marks: a stay of
    exactly k times 12 hours bills k half days, and anything longer, up to
    the next mark, bills k + 1 (12 hours and one millisecond bill 2). *)
Theorem halfDays_rounds_up (k r : Z) :
  0 < r <= halfDayMs ->
  halfDays_of (k * halfDayMs) = k /\ halfDays_of (k * halfDayMs + r) = k + 1.
Proof.
  intros H. assert (Hm : halfDayMs = 43200000) by reflexivity.
  split; apply halfDays_unique; nia.
Qed.

Lemma halfDays_rounds_up_witness :
  0 < 1 <= halfDayMs
  /\ halfDays_of (1 * halfDayMs) = 1 /\ halfDays_of (1 * halfDayMs + 1) = 1 + 1.
Proof.
  split; [vm_compute; split; [reflexivity | discriminate]|].
  apply (halfDays_rounds_up 1 1). vm_compute; split; [reflexivity | discriminate].
Defined.

(** X17: a longer stay never bills less: half days and the amount charged
    are monotone in the duration, for either value of the stored flag. *)
Theorem fee_monotone (has_package d1 d2 : Z) :
  d1 <= d2 ->
  halfDays_of d1 <= halfDays_of d2
  /\ amount_of has_package (halfDays_of d1) <= amount_of has_package (halfDays_of d2).
Proof.
  intros H.
  pose proof (Math_ceil_div_spec d1 halfDayMs eq_refl) as C1.
  pose proof (Math_ceil_div_spec d2 halfDayMs eq_refl) as C2.
  fold (halfDays_of d1) in C1. fold (halfDays_of d2) in C2.
  assert (Hm : halfDayMs = 43200000) by reflexivity.
  assert (Hh : halfDays_of d1 <= halfDays_of d2) by nia.
  split; [exact Hh|]. unfold amount_of. destruct (has_package =? 0)%Z; lia.
Qed.

Lemma fee_monotone_witness :
  3600000 <= 46800000
  /\ halfDays_of 3600000 <= halfDays_of 46800000
  /\ amount_of 0 (halfDays_of 3600000) <= amount_of 0 (halfDays_of 46800000).
Proof.
  split; [lia | apply (fee_monotone 0 3600000 46800000); lia].
Defined.

(** ** The entry stage *)

Lemma find_by_id (s : Space) (l : list Space) :
  NoDup (map space_id l) -> In s l ->
  find (fun x => Z.eqb (space_id x) (space_id s)) l = Some s.
Proof.
  induction l as [|x l IH]; simpl; intros H Hin; [contradiction|].
  inversion H as [|? ? Hx Hl]; subst.
  destruct (Z.eqb_spec (space_id x) (space_id s)) as [E|E].
  - destruct Hin as [->|Hin]; [reflexivity|].
    exfalso. apply Hx. rewrite E. now apply in_map.
  - destruct Hin as [->|Hin]; [congruence | now apply IH].
Qed.

Lemma findAvailable_finds (hasPackage : bool) (db : Db) :
  existsb is_available (spaces db) = true ->
  exists id, fst (findAvailable hasPackage db) = Returned (Some id).
Proof.
  intros H. rewrite findAvailable_run. simpl.
  pose proof (find_some_existsb _ _ H) as Hne.
  destruct (find is_available (spaces db)) as [s|]; [|congruence].
  destruct hasPackage; [|eexists; reflexivity].
  destruct (find (fun s0 => is_available s0 && is_package s0) (spaces db));
    eexists; reflexivity.
Qed.

Lemma find_snoc_fresh {A} (p : A -> bool) (l : list A) (x : A) :
  existsb p l = false -> find p (l ++ [x]) = if p x then Some x else None.
Proof.
  induction l as [|y l IH]; simpl; [reflexivity|].
  destruct (p y); simpl; [discriminate | exact IH].
Qed.

Lemma no_row_no_active (plate : string) (l : list Vehicle) :
  existsb (fun v => String.eqb (vehicle_plate_number v) plate) l = false ->
  existsb (q_where select_active_vehicle [VText plate]) l = false.
Proof.
  induction l as [|v l IH]; simpl; [reflexivity|].
  destruct (String.eqb (vehicle_plate_number v) plate); simpl; [discriminate | exact IH].
Qed.

(** X18: the part of /api/entry behind the whitelist lookup admits a plate
    that has no row in the vehicles table whenever a space is available:
    it answers the chosen space and the flag it was given, that space goes
    from available to occupied, the plate gets an active record carrying
    the flag, the clock and the space, and one entry row with amount 0 is
    appended to the log. *)
Theorem entry_allocate_admits (plateNumber : string) (hasPackage : bool) (now : Z) (db : Db) :
  NoDup (map space_id (spaces db)) ->
  existsb (fun v => String.eqb (vehicle_plate_number v) plateNumber) (vehicles db) = false ->
  existsb is_available (spaces db) = true ->
  let db' := snd (entry_allocate plateNumber hasPackage now db) in
  exists id : Z,
    fst (entry_allocate plateNumber hasPackage now db) = Returned (JsonEntry id hasPackage)
    /\ status_of id db = Some "available"
    /\ status_of id db' = Some "occupied"
    /\ active_record plateNumber db'
       = Some (mkVehicle (seq_vehicles db + 1) plateNumber
                         (if hasPackage then 1 else 0) now None id)
    /\ logs db' = (logs db ++ [mkLogRow (seq_logs db + 1) plateNumber "entry" now 0 0])%list.
Proof.
  intros Hnd Hplate Hav db'. subst db'.
  destruct (findAvailable_finds hasPackage db Hav) as (id & F).
  destruct (findAvailable_some _ _ _ F) as (s & Hs & Hid & Hs_av).
  rewrite entry_allocate_run, F, Hplate.
  assert (Hfk : existsb (fun x => Z.eqb (space_id x) id) (spaces db) = true).
  { apply existsb_exists. exists s. split; [exact Hs | now apply Z.eqb_eq]. }
  rewrite Hfk. simpl. exists id. split; [reflexivity|].
  pose proof (find_by_id s _ Hnd Hs) as Hfind. rewrite Hid in Hfind.
  unfold is_available in Hs_av. apply String.eqb_eq in Hs_av.
  split; [unfold status_of; rewrite Hfind; simpl; now rewrite Hs_av|].
  split; [unfold status_of; simpl; rewrite find_update_where_id, Hfind; reflexivity|].
  split; [|reflexivity].
  unfold active_record; simpl.
  rewrite (find_snoc_fresh _ _ _ (no_row_no_active _ _ Hplate)). simpl.
  now rewrite String.eqb_refl.
Qed.

Lemma entry_allocate_admits_witness :
  NoDup (map space_id (spaces (seeded 0)))
  /\ existsb (fun v => String.eqb (vehicle_plate_number v) "赣A10001") (vehicles (seeded 0)) = false
  /\ existsb is_available (spaces (seeded 0)) = true
  /\ let db' := snd (entry_allocate "赣A10001" false seed_now (seeded 0)) in
     exists id : Z,
       fst (entry_allocate "赣A10001" false seed_now (seeded 0)) = Returned (JsonEntry id false)
       /\ status_of id (seeded 0) = Some "available"
       /\ status_of id db' = Some "occupied"
       /\ active_record "赣A10001" db'
          = Some (mkVehicle (seq_vehicles (seeded 0) + 1) "赣A10001"
                            (if false then 1 else 0) seed_now None id)
       /\ logs db' = (logs (seeded 0)
                      ++ [mkLogRow (seq_logs (seeded 0) + 1) "赣A10001" "entry" seed_now 0 0])%list.
Proof.
  assert (H : NoDup (map space_id (spaces (seeded 0))))
    by (apply ascending_NoDup; vm_compute; reflexivity).
  split; [exact H|]. split; [vm_compute; reflexivity|]. split; [vm_compute; reflexivity|].
  apply (entry_allocate_admits "赣A10001" false seed_now (seeded 0) H); vm_compute; reflexivity.
Defined.

Lemma entry_allocate_success (plateNumber : string) (hasPackage : bool) (now : Z) (db : Db) :
  existsb (fun v => String.eqb (vehicle_plate_number v) plateNumber) (vehicles db) = false ->
  existsb is_available (spaces db) = true ->
  exists s : Space,
    In s (spaces db) /\ is_available s = true
    /\ (hasPackage && existsb (fun x => is_available x && is_package x) (spaces db) = true ->
        is_package s = true)
    /\ entry_allocate plateNumber hasPackage now db
       = (Returned (JsonEntry (space_id s) hasPackage),
          mkDb (update_where (fun x => Z.eqb (space_id x) (space_id s))
                             (set_status "occupied") (spaces db))
               (package_whitelist db)
               (vehicles db ++ [mkVehicle (seq_vehicles db + 1) plateNumber
                                          (if hasPackage then 1 else 0) now None (space_id s)])
               (logs db ++ [mkLogRow (seq_logs db + 1) plateNumber "entry" now 0 0])
               (seq_spaces db) (seq_package_whitelist db)
               (seq_vehicles db + 1) (seq_logs db + 1)).
Proof.
  intros Hplate Hav.
  assert (Hrun : forall s, In s (spaces db) ->
            fst (findAvailable hasPackage db) = Returned (Some (space_id s)) ->
            entry_allocate plateNumber hasPackage now db
            = (Returned (JsonEntry (space_id s) hasPackage),
               mkDb (update_where (fun x => Z.eqb (space_id x) (space_id s))
                                  (set_status "occupied") (spaces db))
                    (package_whitelist db)
                    (vehicles db ++ [mkVehicle (seq_vehicles db + 1) plateNumber
                                               (if hasPackage then 1 else 0) now None (space_id s)])
                    (logs db ++ [mkLogRow (seq_logs db + 1) plateNumber "entry" now 0 0])
                    (seq_spaces db) (seq_package_whitelist db)
                    (seq_vehicles db + 1) (seq_logs db + 1))).
  { intros s Hs F. rewrite entry_allocate_run, F, Hplate.
    assert (Hfk : existsb (fun x => Z.eqb (space_id x) (space_id s)) (spaces db) = true).
    { apply existsb_exists. exists s. split; [exact Hs | apply Z.eqb_refl]. }
    now rewrite Hfk. }
  pose proof (find_some_existsb _ _ Hav) as Hne.
  destruct (find is_available (spaces db)) as [a|] eqn:Fa; [|congruence].
  apply find_some in Fa as Ha. destruct Ha as [Ha_in Ha_av].
  destruct hasPackage.
  - destruct (find (fun x => is_available x && is_package x) (spaces db)) as [p|] eqn:Fp.
    + apply find_some in Fp as Hp. destruct Hp as [Hp_in Hp].
      apply andb_true_iff in Hp as [Hp_av Hp_pk].
      exists p. repeat split; auto. apply Hrun; auto.
      rewrite findAvailable_run. simpl. now rewrite Fp.
    + exists a. repeat split; auto.
      * simpl. intros Hex. apply find_some_existsb in Hex. congruence.
      * apply Hrun; auto. rewrite findAvailable_run. simpl. now rewrite Fp, Fa.
  - exists a. repeat split; auto; [discriminate|].
    apply Hrun; auto. rewrite findAvailable_run. simpl. now rewrite Fa.
Qed.



(** X20: the entry stage never admits a plate that already has a row in
    the vehicles table, active or closed, and writes nothing for it. It
    searches a space first: with no space available the answer is lot
    full, otherwise the INSERT throws on the UNIQUE plate_number. *)
Theorem entry_allocate_rejects_recorded
  (plateNumber : string) (hasPackage : bool) (now : Z) (db : Db) :
  existsb (fun v => String.eqb (vehicle_plate_number v) plateNumber) (vehicles db) = true ->
  entry_allocate plateNumber hasPackage now db
  = (if existsb is_available (spaces db)
     then Threw (SqliteError "UNIQUE constraint failed: vehicles.plate_number")
     else Returned LotFullError, db).
Proof.
  intros Hplate. destruct (existsb is_available (spaces db)) eqn:Hav.
  - destruct (findAvailable_finds hasPackage db Hav) as (id & F).
    now rewrite entry_allocate_run, F, Hplate.
  - now apply entry_allocate_lot_full.
Qed.

Lemma entry_allocate_rejects_recorded_witness :
  existsb (fun v => String.eqb (vehicle_plate_number v) "京A00001") (vehicles (seeded 0)) = true
  /\ entry_allocate "京A00001" true seed_now (seeded 0)
     = (if existsb is_available (spaces (seeded 0))
        then Threw (SqliteError "UNIQUE constraint failed: vehicles.plate_number")
        else Returned LotFullError, seeded 0).
Proof.
  split; [vm_compute; reflexivity|].
  apply (entry_allocate_rejects_recorded "京A00001" true seed_now (seeded 0)).
  vm_compute; reflexivity.
Defined.

(** ** Entry followed by exit *)

Lemma update_update (k : Z) (a b : string) (l : list Space) :
  update_where (fun x => Z.eqb (space_id x) k) (set_status a)
    (update_where (fun x => Z.eqb (space_id x) k) (set_status b) l)
  = update_where (fun x => Z.eqb (space_id x) k) (set_status a) l.
Proof.
  induction l as [|x l IH]; simpl; [reflexivity|]. rewrite IH.
  destruct (Z.eqb (space_id x) k) eqn:E; simpl; rewrite E; reflexivity.
Qed.

Lemma update_same_status (s : Space) (l : list Space) :
  NoDup (map space_id l) -> In s l ->
  update_where (fun x => Z.eqb (space_id x) (space_id s)) (set_status (space_status s)) l = l.
Proof.
  induction l as [|x l IH]; simpl; intros H Hin; [reflexivity|].
  inversion H as [|? ? Hx Hl]; subst.
  destruct (Z.eqb_spec (space_id x) (space_id s)) as [E|E].
  - assert (x = s) as ->.
    { destruct Hin as [|Hin]; [assumption|]. exfalso. apply Hx. rewrite E. now apply in_map. }
    f_equal; [destruct s; reflexivity|].
    apply update_where_none. apply not_true_is_false. intros T.
    apply existsb_exists in T as (y & Hy & Ey). apply Z.eqb_eq in Ey.
    apply Hx. rewrite <- Ey. now apply in_map.
  - destruct Hin as [->|Hin]; [congruence|]. f_equal. now apply IH.
Qed.

(** X21: a visit leaves the space inventory as it found it. On a
    consistent database, for a plate with no row yet and a space available,
    the entry stage followed by the exit stage on the record it created
    gives back the spaces table unchanged; the plate has no active record,
    the active records are those from before, and the log has grown by two
    rows. *)
Theorem entry_exit_roundtrip
  (plateNumber : string) (hasPackage : bool) (now later : Z) (db : Db) :
  consistent db ->
  existsb (fun v => String.eqb (vehicle_plate_number v) plateNumber) (vehicles db) = false ->
  existsb is_available (spaces db) = true ->
  let db' := close_visit plateNumber later
               (snd (entry_allocate plateNumber hasPackage now db)) in
  spaces db' = spaces db
  /\ active_record plateNumber db' = None
  /\ filter is_active (vehicles db') = filter is_active (vehicles db)
  /\ List.length (logs db') = (List.length (logs db) + 2)%nat.
Proof.
  intros C Hplate Hav.
  destruct (entry_allocate_success plateNumber hasPackage now db Hplate Hav)
    as (s & Hs & Hs_av & _ & E).
  rewrite E. simpl snd. unfold close_visit.
  pose proof (no_row_no_active _ _ Hplate) as Hq.
  assert (Hrec : forall d, vehicles d
                  = (vehicles db ++ [mkVehicle (seq_vehicles db + 1) plateNumber
                                               (if hasPackage then 1 else 0) now None
                                               (space_id s)])%list ->
                 active_record plateNumber d
                 = Some (mkVehicle (seq_vehicles db + 1) plateNumber
                                   (if hasPackage then 1 else 0) now None (space_id s))).
  { intros d Ed. unfold active_record. rewrite Ed, (find_snoc_fresh _ _ _ Hq). simpl.
    now rewrite String.eqb_refl. }
  match goal with |- context [active_record _ ?d] => rewrite (Hrec d eq_refl) end.
  rewrite exit_settle_run. simpl.
  destruct C as [Hsp Hvid Hseq Hact Hoa].
  assert (Hfresh : ~ In (seq_vehicles db + 1) (map vehicle_id (vehicles db))).
  { intros Hin. apply in_map_iff in Hin as (v & Hv & Hin). specialize (Hseq v Hin). lia. }
  assert (Hupd : update_where (fun x => Z.eqb (vehicle_id x) (seq_vehicles db + 1))
                   (set_exit_time later)
                   (vehicles db ++ [mkVehicle (seq_vehicles db + 1) plateNumber
                                              (if hasPackage then 1 else 0) now None
                                              (space_id s)])
                 = (vehicles db ++ [mkVehicle (seq_vehicles db + 1) plateNumber
                                              (if hasPackage then 1 else 0) now (Some later)
                                              (space_id s)])%list).
  { unfold update_where. rewrite map_app. fold (@update_where Vehicle).
    change (map (fun r => if Z.eqb (vehicle_id r) (seq_vehicles db + 1)
                          then set_exit_time later r else r) (vehicles db))
      with (update_where (fun x => Z.eqb (vehicle_id x) (seq_vehicles db + 1))
                         (set_exit_time later) (vehicles db)).
    rewrite (update_where_absent _ _ _ Hfresh). simpl. now rewrite Z.eqb_refl. }
  rewrite Hupd. repeat split.
  - rewrite update_update. unfold is_available in Hs_av. apply String.eqb_eq in Hs_av.
    rewrite <- Hs_av. now apply update_same_status.
  - unfold active_record; simpl. rewrite (find_snoc_fresh _ _ _ Hq). simpl.
    now rewrite andb_false_r.
  - rewrite filter_app. simpl. now rewrite app_nil_r.
  - rewrite !length_app. simpl. lia.
Qed.

Lemma entry_exit_roundtrip_witness :
  consistent (seeded 0)
  /\ existsb (fun v => String.eqb (vehicle_plate_number v) "赣A10001") (vehicles (seeded 0)) = false
  /\ existsb is_available (spaces (seeded 0)) = true
  /\ let db' := close_visit "赣A10001" (seed_now + hour_ms)
                  (snd (entry_allocate "赣A10001" false seed_now (seeded 0))) in
     spaces db' = spaces (seeded 0)
     /\ active_record "赣A10001" db' = None
     /\ filter is_active (vehicles db') = filter is_active (vehicles (seeded 0))
     /\ List.length (logs db') = (List.length (logs (seeded 0)) + 2)%nat.
Proof.
  split; [apply seeded_consistent|]. split; [vm_compute; reflexivity|].
  split; [vm_compute; reflexivity|].
  apply (entry_exit_roundtrip "赣A10001" false seed_now (seed_now + hour_ms) (seeded 0));
    [apply seeded_consistent | vm_compute; reflexivity | vm_compute; reflexivity].
Defined.

(** ** The exit stage *)

(** X22: on a consistent database the exit stage, run on the active record
    of a plate, releases exactly one vehicle and one space: the space of
    the record goes from occupied to available, and the numbers of active
    records and of occupied spaces both drop by one. *)
Theorem exit_settle_releases (plateNumber : string) (v : Vehicle) (now : Z) (db : Db) :
  consistent db ->
  active_record plateNumber db = Some v ->
  let db' := snd (exit_settle plateNumber v now db) in
  status_of (vehicle_space_id v) db = Some "occupied"
  /\ status_of (vehicle_space_id v) db' = Some "available"
  /\ (active_count db' + 1 = active_count db)%nat
  /\ (occupied_count db' + 1 = occupied_count db)%nat.
Proof.
  intros C Hrec db'.
  pose proof (exit_settle_consistent plateNumber v now db C Hrec) as C'.
  fold db' in C'.
  pose proof (consistent_counts _ C) as N. pose proof (consistent_counts _ C') as N'.
  destruct C as [Hsp Hvid Hseq Hact Hoa].
  apply find_some in Hrec as [Hin Hv]. simpl in Hv. apply andb_true_iff in Hv as [_ Hv].
  change (is_active v = true) in Hv.
  assert (Hocc : In (vehicle_space_id v) (occupied_spaces db)).
  { apply Hoa. unfold active_spaces. apply in_map. apply filter_In. auto. }
  unfold occupied_spaces in Hocc. apply in_map_iff in Hocc as (s & Hsid & Hs).
  apply filter_In in Hs as [Hs Hs_occ].
  pose proof (find_by_id s _ Hsp Hs) as Hfind. rewrite Hsid in Hfind.
  unfold is_occupied in Hs_occ. apply String.eqb_eq in Hs_occ.
  assert (Hact' : (active_count db' + 1 = active_count db)%nat).
  { destruct (active_after_exit v now _ Hvid Hin Hv) as (l1 & l2 & E1 & E2).
    unfold active_count, db'. rewrite exit_settle_run. simpl.
    rewrite <- (length_map vehicle_space_id), E2.
    rewrite <- (length_map vehicle_space_id (filter is_active (vehicles db))), E1.
    rewrite !length_app. simpl. lia. }
  split; [unfold status_of; rewrite Hfind; simpl; now rewrite Hs_occ|].
  split; [|split; [exact Hact' | lia]].
  unfold status_of, db'. rewrite exit_settle_run. simpl.
  now rewrite find_update_where_id, Hfind.
Qed.

Lemma exit_settle_releases_witness :
  consistent (seeded 0)
  /\ active_record "川A77777" (seeded 0)
     = Some (mkVehicle 4 "川A77777" 0 (seed_now - 8 * hour_ms) None 17)
  /\ let v := mkVehicle 4 "川A77777" 0 (seed_now - 8 * hour_ms) None 17 in
     let db' := snd (exit_settle "川A77777" v seed_now (seeded 0)) in
     status_of (vehicle_space_id v) (seeded 0) = Some "occupied"
     /\ status_of (vehicle_space_id v) db' = Some "available"
     /\ (active_count db' + 1 = active_count (seeded 0))%nat
     /\ (occupied_count db' + 1 = occupied_count (seeded 0))%nat.
Proof.
  split; [apply seeded_consistent|]. split; [vm_compute; reflexivity|].
  apply (exit_settle_releases "川A77777" _ seed_now (seeded 0));
    [apply seeded_consistent | vm_compute; reflexivity].
Defined.

(** ** Clicks on the space grid *)

Lemma click_run (cell : Space) (db : Db) :
  click cell db =
  if is_occupied cell then db
  else step (Reserve (space_id cell)
                     (if is_reserved cell then "available" else "reserved")) db.
Proof.
  unfold click, space_onClick, is_occupied, is_reserved.
  destruct (String.eqb (space_status cell) "occupied"); reflexivity.
Qed.

(** X23: a click on a cell that shows the current row of the space keeps
    the lot consistent: on a consistent database, whatever cell of the
    current spaces table is clicked, the database stays consistent and
    still has as many occupied spaces as active records. *)
Theorem click_keeps_consistent (cell : Space) (db : Db) :
  consistent db -> In cell (spaces db) ->
  consistent (click cell db)
  /\ occupied_count (click cell db) = active_count (click cell db).
Proof.
  intros C Hin.
  assert (C' : consistent (click cell db)).
  { rewrite click_run. destruct (is_occupied cell) eqn:Hocc; [exact C|].
    apply step_consistent; [|exact C]. simpl. apply andb_true_iff. split.
    - now destruct (is_reserved cell).
    - apply forallb_forall. intros s Hs. apply negb_true_iff.
      destruct (Z.eqb_spec (space_id s) (space_id cell)) as [E|E]; [|reflexivity].
      assert (s = cell) as ->
        by (eapply NoDup_map_inj; eauto using space_ids_unique).
      now rewrite Hocc. }
  split; [exact C' | now apply consistent_counts].
Qed.

Lemma click_keeps_consistent_witness :
  consistent (seeded 0) /\ In (mkSpace 3 "A-003" "available" "package") (spaces (seeded 0))
  /\ consistent (click (mkSpace 3 "A-003" "available" "package") (seeded 0))
  /\ occupied_count (click (mkSpace 3 "A-003" "available" "package") (seeded 0))
     = active_count (click (mkSpace 3 "A-003" "available" "package") (seeded 0)).
Proof.
  assert (Hin : In (mkSpace 3 "A-003" "available" "package") (spaces (seeded 0))).
  { assert (E : nth_error (spaces (seeded 0)) 2 = Some (mkSpace 3 "A-003" "available" "package"))
      by (vm_compute; reflexivity).
    eapply nth_error_In; exact E. }
  split; [apply seeded_consistent|]. split; [exact Hin|].
  apply (click_keeps_consistent _ (seeded 0)); [apply seeded_consistent | exact Hin].
Defined.

(** X24: two clicks undo each other. With the primary key of spaces
    unique, clicking a cell that shows a current available or reserved row
    and then clicking it again as the page shows it after the first click
    gives back the spaces table as it was. *)
Theorem click_twice_restores (cell : Space) (db : Db) :
  NoDup (map space_id (spaces db)) -> In cell (spaces db) ->
  is_available cell || is_reserved cell = true ->
  let shown := set_status (if is_reserved cell then "available" else "reserved") cell in
  spaces (click shown (click cell db)) = spaces db.
Proof.
  intros Hnd Hin Hst shown.
  assert (Hno : is_occupied cell = false).
  { unfold is_available, is_reserved, is_occupied in *.
    apply orb_true_iff in Hst as [H|H]; apply String.eqb_eq in H; now rewrite H. }
  assert (Hshown : click shown (click cell db)
                   = step (Reserve (space_id cell) (space_status cell))
                          (step (Reserve (space_id cell)
                                   (if is_reserved cell then "available" else "reserved")) db)).
  { rewrite (click_run cell), Hno. rewrite click_run. subst shown.
    unfold is_available, is_reserved, is_occupied in *. simpl.
    apply orb_true_iff in Hst as [H|H]; apply String.eqb_eq in H; rewrite H; reflexivity. }
  rewrite Hshown. unfold step, express, handler. rewrite !api_reserve_run. simpl.
  rewrite update_update. now apply update_same_status.
Qed.

Lemma click_twice_restores_witness :
  NoDup (map space_id (spaces (seeded 0)))
  /\ In (mkSpace 3 "A-003" "available" "package") (spaces (seeded 0))
  /\ is_available (mkSpace 3 "A-003" "available" "package")
     || is_reserved (mkSpace 3 "A-003" "available" "package") = true
  /\ let shown := set_status (if is_reserved (mkSpace 3 "A-003" "available" "package")
                              then "available" else "reserved")
                             (mkSpace 3 "A-003" "available" "package") in
     spaces (click shown (click (mkSpace 3 "A-003" "available" "package") (seeded 0)))
     = spaces (seeded 0).
Proof.
  assert (Hnd : NoDup (map space_id (spaces (seeded 0))))
    by (apply ascending_NoDup; vm_compute; reflexivity).
  assert (Hin : In (mkSpace 3 "A-003" "available" "package") (spaces (seeded 0))).
  { assert (E : nth_error (spaces (seeded 0)) 2 = Some (mkSpace 3 "A-003" "available" "package"))
      by (vm_compute; reflexivity).
    eapply nth_error_In; exact E. }
  split; [exact Hnd|]. split; [exact Hin|]. split; [reflexivity|].
  apply (click_twice_restores _ (seeded 0) Hnd Hin). reflexivity.
Defined.

(** ** What the operations never do *)

Lemma step_vehicles_logs (op : operation) (db : Db) :
  vehicles (step op db) = vehicles db /\ logs (step op db) = logs db.
Proof.
  destruct op as [p n|p n|p nt n|p|i st].
  - now rewrite step_entry.
  - now rewrite step_exit.
  - destruct (api_whitelist_post_tables p nt n db) as (_ & -> & ->). auto.
  - destruct (api_whitelist_delete_tables p db) as (_ & -> & ->). auto.
  - split; reflexivity.
Qed.

(** X25: the event log is append-only. A step of the server, with the
    stages behind the lookups run directly, keeps every log row in place
    and adds at most one row at the end. *)
Theorem log_append_only (db db' : Db) :
  stage_step db db' ->
  exists tail : list LogRow,
    logs db' = (logs db ++ tail)%list /\ (List.length tail <= 1)%nat.
Proof.
  intros [p hp n d|p v n d Hrec|op d Hop].
  - rewrite entry_allocate_run.
    destruct (fst (findAvailable hp d)) as [[id|]|];
      try (exists []; rewrite app_nil_r; split; [reflexivity | simpl; lia]).
    destruct (existsb _ (vehicles d));
      try (exists []; rewrite app_nil_r; split; [reflexivity | simpl; lia]).
    destruct (existsb _ (spaces d)); simpl.
    + eexists. split; [reflexivity | simpl; lia].
    + exists []. rewrite app_nil_r. split; [reflexivity | simpl; lia].
  - rewrite exit_settle_run. simpl. eexists. split; [reflexivity | simpl; lia].
  - destruct (step_vehicles_logs op d) as [_ ->].
    exists []. rewrite app_nil_r. split; [reflexivity | simpl; lia].
Qed.

Lemma log_append_only_witness :
  stage_step (seeded 0) (snd (entry_allocate "赣A10001" false seed_now (seeded 0)))
  /\ exists tail : list LogRow,
       logs (snd (entry_allocate "赣A10001" false seed_now (seeded 0)))
       = (logs (seeded 0) ++ tail)%list /\ (List.length tail <= 1)%nat.
Proof.
  split; [apply stage_entry|].
  apply (log_append_only (seeded 0)). apply stage_entry.
Defined.

(** X26: POST /api/entry and POST /api/exit, as written, fail for every
    plate on every database: their lookup is run without its argument, the
    driver throws, the answer has status 500 and nothing is written. *)
Theorem entry_and_exit_always_fail (plateNumber : string) (now : Z) (db : Db) :
  express (api_entry plateNumber now) db = (InternalServerError too_few, db)
  /\ express (api_exit plateNumber now) db = (InternalServerError too_few, db).
Proof.
  unfold express. now rewrite api_entry_throws, api_exit_throws.
Qed.

Lemma run_vehicles_logs (ops : list operation) :
  forall db, vehicles (run ops db) = vehicles db /\ logs (run ops db) = logs db.
Proof.
  induction ops as [|op ops IH]; intros db; simpl; [auto|].
  destruct (IH (step op db)) as [-> ->]. apply step_vehicles_logs.
Qed.

(** X27: no sequence of public operations admits or releases a vehicle:
    in every state reached from the seeded one the vehicles table and the
    event log are those of the seed, so /api/stats keeps reporting the
    seeded revenue. *)
Theorem public_operations_never_park (boot : Z) (ops : list operation) :
  vehicles (run ops (seeded boot)) = vehicles (seeded boot)
  /\ logs (run ops (seeded boot)) = logs (seeded boot)
  /\ exists st : Stats,
       api_stats (run ops (seeded boot)) = (Returned st, run ops (seeded boot))
       /\ totalRevenue st = 80.
Proof.
  destruct (run_vehicles_logs ops (seeded boot)) as [Ev El].
  split; [exact Ev|]. split; [exact El|].
  destruct (api_stats_revenue (run ops (seeded boot))) as (st & E & R).
  exists st. split; [exact E|]. rewrite R. unfold sum_amounts. rewrite El.
  vm_compute. reflexivity.
Qed.

Lemma step_space_identity (op : operation) (db : Db) :
  map (fun s => (space_id s, space_code s, space_type s)) (spaces (step op db))
  = map (fun s => (space_id s, space_code s, space_type s)) (spaces db).
Proof.
  destruct op as [p n|p n|p nt n|p|i st].
  - now rewrite step_entry.
  - now rewrite step_exit.
  - now destruct (api_whitelist_post_tables p nt n db) as (-> & _).
  - now destruct (api_whitelist_delete_tables p db) as (-> & _).
  - unfold step, express, handler. rewrite api_reserve_run. simpl.
    induction (spaces db) as [|x l IH]; simpl; [reflexivity|]. rewrite IH.
    now destruct (Z.eqb (space_id x) i).
Qed.

(** X28: the spaces themselves are fixed. In every state reached from the
    seeded one, /api/spaces lists the same spaces in the same order with
    the identifiers, codes and types they were seeded with; only statuses
    differ. *)
Theorem spaces_identity_fixed (boot : Z) (ops : list operation) :
  exists rows : list Space,
    api_spaces (run ops (seeded boot)) = (Returned rows, run ops (seeded boot))
    /\ map (fun s => (space_id s, space_code s, space_type s)) rows
       = map (fun s => (space_id s, space_code s, space_type s)) (spaces (seeded boot)).
Proof.
  eexists. split; [reflexivity|].
  generalize (seeded boot) as db. induction ops as [|op ops IH]; intros db; simpl.
  - reflexivity.
  - now rewrite IH, step_space_identity.
Qed.

Lemma step_keeps_empty_plate (op : operation) (db : Db) :
  isWhitelisted "" db = true -> isWhitelisted "" (step op db) = true.
Proof.
  intros H. destruct op as [p n|p n|p nt n|p|i st].
  - now rewrite step_entry.
  - now rewrite step_exit.
  - destruct (isWhitelisted p db) eqn:W.
    + unfold step, handler. now rewrite api_whitelist_post_run, W.
    + rewrite (step_whitelist_add_fresh _ _ _ _ W). rewrite isWhitelisted_existsb in *.
      simpl. rewrite existsb_snoc, H. reflexivity.
  - rewrite step_whitelist_remove. destruct (String.eqb_spec p "") as [E|E]; [exact H|].
    rewrite isWhitelisted_existsb in *. simpl. rewrite existsb_filter.
    clear -H E. induction (package_whitelist db) as [|w l IH]; simpl in *; [discriminate|].
    destruct (String.eqb_spec (wl_plate_number w) "") as [E1|E1]; simpl in *.
    + destruct (String.eqb_spec (wl_plate_number w) p) as [E2|E2]; [congruence | reflexivity].
    + now apply IH.
  - exact H.
Qed.

(** X29: an empty plate on the whitelist cannot be removed through the
    server. POST /api/whitelist accepts the empty plate, but the route of
    the removal does not match an empty path segment: once the empty plate
    is registered it stays whitelisted after every sequence of public
    operations. *)
Theorem empty_plate_stays_registered (ops : list operation) (db : Db) :
  isWhitelisted "" db = true -> isWhitelisted "" (run ops db) = true.
Proof.
  revert db. induction ops as [|op ops IH]; intros db H; simpl; [exact H|].
  apply IH. now apply step_keeps_empty_plate.
Qed.

Lemma empty_plate_stays_registered_witness :
  isWhitelisted "" (step (WhitelistAdd "" "note" 7) (seeded 0)) = true
  /\ isWhitelisted "" (run [WhitelistRemove ""; WhitelistRemove "京A00001"]
                           (step (WhitelistAdd "" "note" 7) (seeded 0))) = true.
Proof.
  split; [vm_compute; reflexivity|].
  apply (empty_plate_stays_registered _ (step (WhitelistAdd "" "note" 7) (seeded 0))).
  vm_compute; reflexivity.
Defined.
